(** * lichess-bot: the engine wrapper ([engine_wrapper.py])

    A shallow embedding of the module that hides the UCI and XBoard engine
    protocols behind one interface, and the properties its specification
    states about it.

    Conventions of the embedding:
    - a Python [int] is a [Z]; [//] and [%] by a positive constant are
      [Z.div] and [Z.modulo] (both floor, like Python's);
    - a [float] is carried by its exact rational value ([Qc]); the move
      time of [first_search] is the binary64 that Python's [/] returns,
      the clocks of [search_with_ponder] are kept as exact quotients;
    - [None]-able attributes are [option]s, and an instance attribute that
      [__init__] never assigns is [None] until a method assigns it, reading
      it while unset raises [AttributeError];
    - dictionaries that come from the YAML configuration keep their
      insertion order (association lists); the mappings owned by the engine
      library (features, search info) are only probed by key and are [gmap]s;
    - the engine process is an external collaborator: what the wrapper sends
      to it is appended to a trace, what it answers comes from an oracle. *)

From Stdlib Require Import ZArith QArith Qcanon Ascii.
From stdpp Require Import base option list strings gmap pretty.

Open Scope Z_scope.
Open Scope string_scope.

(** ** Python values and exceptions *)

(** The exceptions of the code below; [EngineError] is the engine library's. *)
Inductive PyExc :=
| AttributeError (what : string)
| KeyError (key : string)
| TypeError (what : string)
| OverflowError (what : string)
| EngineError (what : string).

Inductive Res (A : Type) :=
| Ok (a : A)
| Raise (e : PyExc).
Arguments Ok {A} a.
Arguments Raise {A} e.

(** Values a YAML configuration holds. *)
#[warnings="-register-all"]
Inductive PyVal :=
| PyNone
| PyBool (b : bool)
| PyInt (z : Z)
| PyStr (s : string)
| PyDict (items : list (string * PyVal)).

Abbreviation Dict := (list (string * PyVal)).

(** The keys a mapping read from the YAML configuration can have. The
    blocks [create_engine] reads are looked up by [str] keys throughout, so
    [Dict] has [str] keys; [remove_managed_options] is also given below
    over mappings with any of these keys. *)
Inductive PyKey :=
| KNone
| KBool (b : bool)
| KInt (z : Z)
| KStr (s : string).

Abbreviation Items := (list (PyKey * PyVal)).

(** A [Dict] as a mapping of that kind. *)
Definition str_keyed (config : Dict) : Items :=
  map (fun item => (KStr item.1, item.2)) config.

(** Numbers handed to [chess.engine.Limit]. *)
Inductive PyNum :=
| NInt (z : Z)
| NFloat (q : Qc).

Definition num_value (n : PyNum) : Qc :=
  match n with
  | NInt z => Q2Qc (inject_Z z)
  | NFloat q => q
  end.

(** Python's [==] on numbers compares values, whatever the two types. *)
Definition num_eq (a b : PyNum) : bool := bool_decide (num_value a = num_value b).

(** The exact quotient of two ints, [b] a positive literal: what
    [search_with_ponder] hands over as a clock, before any rounding. *)
Definition true_div (a : Z) (b : positive) : PyNum := NFloat (Q2Qc (a # b)).

(** [a // b] on two ints. *)
Definition floor_div (a b : Z) : PyNum := NInt (a `div` b).

(** *** The float of [a / b]

    Python's true division of two ints is the binary64 nearest to the exact
    quotient, ties going to the even mantissa, and raises [OverflowError]
    when that float would not be finite. A float is carried by its exact
    value, so that [num_eq] is Python's [==] between a float and an int. *)

(** [n / d] rounded to the nearest integer, ties to the even one ([d > 0]). *)
Definition round_half_even (n d : Z) : Z :=
  let q := n `div` d in
  let r := n `mod` d in
  if (2 * r <? d)%Z then q
  else if (d <? 2 * r)%Z then q + 1
  else if Z.even q then q else q + 1.

(** [floor (log2 (a / b))] for [a, b > 0]. *)
Definition floor_log2_ratio (a b : Z) : Z :=
  if (b <=? a)%Z then Z.log2 (a `div` b)
  else - Z.log2_up ((b + a - 1) `div` a).

(** The binary64 nearest to [a / b] for [a, b > 0], as mantissa [m] and
    exponent [e] of the value [m * 2 ^ e]: 53 bits of mantissa, subnormal
    below [2 ^ -1022]. *)
Definition binary64_of_ratio (a b : Z) : Z * Z :=
  let e := Z.max (floor_log2_ratio a b - 52) (-1074) in
  let m := if (0 <=? e)%Z then round_half_even a (b * 2 ^ e)
           else round_half_even (a * 2 ^ (- e)) b in
  (m, e).

Definition binary64_value (m e : Z) : Qc :=
  if (0 <=? e)%Z then Q2Qc (inject_Z (m * 2 ^ e))
  else Q2Qc (m # Z.to_pos (2 ^ (- e))).

(** The value of the float [a / b], [None] when the division overflows. *)
Definition float_div_value (a : Z) (b : positive) : option Qc :=
  if (a =? 0)%Z then Some (Q2Qc 0)
  else
    let '(m, e) := binary64_of_ratio (Z.abs a) (Z.pos b) in
    if (0 <=? e)%Z && (2 ^ 1024 <=? m * 2 ^ e)%Z then None
    else Some (binary64_value (Z.sgn a * m) e).

(** [a / b] on two ints, [b] a positive literal. *)
Definition float_div (a : Z) (b : positive) : Res PyNum :=
  match float_div_value a b with
  | Some value => Ok (NFloat value)
  | None => Raise (OverflowError "integer division result too large for a float")
  end.

(** Truth value of an object in a condition. *)
Definition truthy (v : PyVal) : bool :=
  match v with
  | PyNone => false
  | PyBool b => b
  | PyInt z => negb (z =? 0)%Z
  | PyStr s => negb (String.eqb s "")
  | PyDict items => match items with [] => false | _ => true end
  end.

(** [v == s] against a [str] literal. *)
Definition eq_str (v : PyVal) (s : string) : bool :=
  match v with
  | PyStr s' => String.eqb s' s
  | _ => false
  end.

(** Truth value of a [str]-or-[None] attribute. *)
Definition truthy_str (o : option string) : bool :=
  match o with
  | Some (String _ _) => true
  | _ => false
  end.

(** [o if o else d] on a [str]-or-[None] attribute. *)
Definition str_or (o : option string) (d : string) : string :=
  match o with
  | Some (String _ _ as s) => s
  | _ => d
  end.

(** [f"{o}"] on a [str]-or-[None] attribute. *)
Definition fmt_str (o : option string) : string := default "None" o.

(** [f"{o}"] on an [int]-or-[None] attribute. *)
Definition fmt_int (o : option Z) : string :=
  match o with
  | Some z => pretty z
  | None => "None"
  end.

(** ** Insertion-ordered dictionaries *)

Module dict.

Fixpoint get (k : string) (d : Dict) : option PyVal :=
  match d with
  | [] => None
  | (k', v) :: d' => if String.eqb k k' then Some v else get k d'
  end.

(** The dictionary left by [d.pop(k, default)]. *)
Fixpoint remove (k : string) (d : Dict) : Dict :=
  match d with
  | [] => []
  | (k', v) :: d' => if String.eqb k k' then remove k d' else (k', v) :: remove k d'
  end.

(** [d[k] = v]: an existing key keeps its place, a new one goes last. *)
Fixpoint set (k : string) (v : PyVal) (d : Dict) : Dict :=
  match d with
  | [] => [(k, v)]
  | (k', v') :: d' =>
      if String.eqb k k' then (k, v) :: d' else (k', v') :: set k v d'
  end.

End dict.

(** ** The error-and-state monad of a method call

    A method runs on the object [self : S], may assign its attributes and
    may raise; assignments made before a raise stay. *)

Definition M (S A : Type) : Type := S -> Res A * S.

Definition ret {S A} (a : A) : M S A := fun s => (Ok a, s).

Definition bind {S A B} (m : M S A) (k : A -> M S B) : M S B :=
  fun s =>
    match m s with
    | (Ok a, s') => k a s'
    | (Raise e, s') => (Raise e, s')
    end.

Definition gets {S A} (f : S -> A) : M S A := fun s => (Ok (f s), s).

Definition modify {S} (f : S -> S) : M S unit := fun s => (Ok tt, f s).

(** Reading an attribute that may not have been assigned yet. *)
Definition attr {S A} (what : string) (f : S -> option A) : M S A :=
  fun s =>
    match f s with
    | Some a => (Ok a, s)
    | None => (Raise (AttributeError what), s)
    end.

(** [if c: body] *)
Definition when {S} (c : bool) (body : M S unit) : M S unit :=
  if c then body else ret tt.

(** An expression that may raise, evaluated inside a method. *)
Definition eval {S A} (r : Res A) : M S A := fun s => (r, s).

(** stdpp's [x ← m; k] and [m;; k] are the sequencing of statements. *)
Global Instance M_ret {S} : MRet (M S) := fun A => @ret S A.
Global Instance M_bind {S} : MBind (M S) := fun A B k m => bind m k.

(** Code that raises but assigns nothing runs in [Res]. *)
Global Instance Res_ret : MRet Res := fun A a => Ok a.
Global Instance Res_bind : MBind Res := fun A B k r =>
  match r with
  | Ok a => k a
  | Raise e => Raise e
  end.
Global Instance Res_fmap : FMap Res := fun A B f r =>
  match r with
  | Ok a => Ok (f a)
  | Raise e => Raise e
  end.

(** [v[k]] with a [str] key. *)
Definition getitem (v : PyVal) (k : string) : Res PyVal :=
  match v with
  | PyDict items =>
      match dict.get k items with
      | Some x => Ok x
      | None => Raise (KeyError k)
      end
  | PyStr _ => Raise (TypeError "string indices must be integers")
  | _ => Raise (TypeError "object is not subscriptable")
  end.

(** [v.items()] *)
Definition items_of (v : PyVal) : Res Dict :=
  match v with
  | PyDict items => Ok items
  | _ => Raise (AttributeError "items")
  end.

(** [d.get(k, {}) or {}], and likewise what [d.pop(k, {}) or {}] returns. *)
Definition get_or_empty (k : string) (d : Dict) : PyVal :=
  match dict.get k d with
  | Some v => if truthy v then v else PyDict []
  | None => PyDict []
  end.

Definition result {S A} (r : Res A * S) : Res A := fst r.
Definition state {S A} (r : Res A * S) : S := snd r.

(** [str(v)] as [format] renders it into a [{}] field; the rendering of a
    nested mapping is left to [str_dict]. *)
Definition py_str (str_dict : Dict -> string) (v : PyVal) : string :=
  match v with
  | PyNone => "None"
  | PyBool true => "True"
  | PyBool false => "False"
  | PyInt z => pretty z
  | PyStr s => s
  | PyDict items => str_dict items
  end.

(** [s.split(",")]: the pieces between the separators, never an empty list. *)
Fixpoint split_on (sep : Ascii.ascii) (s : string) : list string :=
  match s with
  | EmptyString => [""]
  | String c s' =>
      if Ascii.eqb c sep then "" :: split_on sep s'
      else match split_on sep s' with
           | piece :: pieces => String c piece :: pieces
           | [] => [String c ""]
           end
  end.

(** A value of the XBoard feature table: python-chess stores a feature as an
    [int] when it parses as one and as a [str] otherwise. *)
Inductive FeatVal :=
| FInt (z : Z)
| FStr (s : string).

Definition feat_truthy (v : FeatVal) : bool :=
  match v with
  | FInt z => negb (z =? 0)%Z
  | FStr s => negb (String.eqb s "")
  end.

(** ** Game metadata *)

Record Player := {
  name : option string;
  rating : option Z;
  title : option string;
}.

Record Game := {
  opponent : Player;
  me : Player;
  clock_initial : Z;
  clock_increment : Z;
}.

(** Two games used in the concrete runs: against the bot Magnus (unrated),
    ninety seconds plus two per move, and against a nameless opponent. *)
Definition magnus_game : Game :=
  {| opponent := {| name := Some "Magnus"; rating := None; title := Some "BOT" |};
     me := {| name := Some "lichess-bot"; rating := Some 2000; title := Some "BOT" |};
     clock_initial := 90000;
     clock_increment := 2000 |}.

Definition anonymous_game : Game :=
  {| opponent := {| name := None; rating := None; title := None |};
     me := {| name := Some "lichess-bot"; rating := Some 2000; title := Some "BOT" |};
     clock_initial := 90000;
     clock_increment := 2000 |}.

(** [chess.engine.Limit], with the keyword arguments the calls below pass. *)
Record Limit := {
  time : option PyNum;
  white_clock : option PyNum;
  black_clock : option PyNum;
}.

Section Wrapper.

(** What the wrapper never looks into: positions, moves, and the values of
    the search info. *)
Context (Board Move InfoVal : Type).

(** ** The engine process *)

Inductive Event :=
| Configure (options : Dict)
| SendLine (line : string)
| Play (board : Board) (limit : Limit) (ponder : bool).

Record PlayResult := {
  move : option Move;
  ponder : option Move;
  info : gmap string InfoVal;
}.

(** [features] is [protocol.features] (XBoard), [config] the names [n] for
    which [n in protocol.config] holds (UCI), [trace] everything the
    wrapper has sent so far, oldest first. *)
Record Engine := {
  features : gmap string FeatVal;
  config : gset string;
  trace : list Event;
}.

Definition emit (ev : Event) (e : Engine) : Engine :=
  {| features := features e; config := config e; trace := (trace e ++ [ev])%list |}.

(** The library and host functions the module calls. *)
Variable is_managed : string -> bool.
Variable info_str : InfoVal -> string.
Variable str_dict : Dict -> string.
Variable path_join : string -> string -> string.
Variable popen_uci : list string -> bool -> Res Engine.
Variable popen_xboard : list string -> bool -> Res Engine.
Variable engine_play : Engine -> Board -> Limit -> bool -> Res PlayResult.

(** Whether [engine.configure(options)] is accepted by an engine that has
    just been started: the library raises [EngineError] for an option the
    engine does not support, a managed one, or a value it cannot parse. *)
Variable engine_configure : Engine -> Dict -> Res unit.

(** ** Module-level functions *)

(** The comprehension builds a new dictionary; [config] is only read. *)
Definition remove_managed_options (config : Dict) : Dict :=
  filter (fun item => negb (is_managed item.1) = true) config.

(** [Option(key, ...).is_managed()] is [self.name.lower() in MANAGED_OPTIONS]:
    only a [str] has [lower]. *)
Definition is_managed_key (key : PyKey) : Res bool :=
  match key with
  | KStr name => Ok (is_managed name)
  | _ => Raise (AttributeError "lower")
  end.

(** The comprehension over a mapping with keys of any kind: the items are
    visited in order, and the first key that is not a [str] raises. *)
Fixpoint remove_managed_options_items (config : Items) : Res Items :=
  match config with
  | [] => Ok []
  | (name, value) :: rest =>
      managed ← is_managed_key name;
      kept ← remove_managed_options_items rest;
      mret (if managed : bool then kept else (name, value) :: kept)
  end.

(** The same call with the dictionaries as objects: [config] is a reference
    into the store of live dictionaries, the comprehension allocates the
    dictionary it returns. *)
Definition load (ref : positive) : M (gmap positive Dict) Dict :=
  fun store =>
    match store !! ref with
    | Some d => (Ok d, store)
    | None => (Raise (TypeError "not a live object"), store)
    end.

Definition new_dict (d : Dict) : M (gmap positive Dict) positive :=
  fun store => let ref := fresh (dom store) in (Ok ref, <[ref := d]> store).

Definition remove_managed_options_obj (config : positive)
  : M (gmap positive Dict) positive :=
  items ← load config;
  new_dict (remove_managed_options items).

Definition get_handler_stats (info : gmap string InfoVal) (stats : list string)
  : list string :=
  foldl (fun stats_str stat =>
           match info !! stat with
           | Some v => (stats_str ++ [stat +:+ ": " +:+ info_str v])%list
           | None => stats_str
           end) [] stats.

(** ** [UCIEngine] *)

Record UCIEngine := {
  uci_go_commands : PyVal;
  uci_engine : Engine;
  uci_last_move_info : gmap string InfoVal;
}.

Definition uci_with_engine (e : Engine) (self : UCIEngine) : UCIEngine :=
  {| uci_go_commands := uci_go_commands self;
     uci_engine := e;
     uci_last_move_info := uci_last_move_info self |}.

Definition uci_with_info (i : gmap string InfoVal) (self : UCIEngine) : UCIEngine :=
  {| uci_go_commands := uci_go_commands self;
     uci_engine := uci_engine self;
     uci_last_move_info := i |}.

Definition UCIEngine_init (commands : list string) (options : Dict)
    (silence_stderr : bool) : Res UCIEngine :=
  let go_commands := get_or_empty "go_commands" options in
  let options := dict.remove "go_commands" options in
  engine ← popen_uci commands silence_stderr;
  engine_configure engine options;;
  mret {| uci_go_commands := go_commands;
          uci_engine := emit (Configure options) engine;
          uci_last_move_info := ∅ |}.

(** [self.engine.play(board, limit, ponder=..., info=INFO_ALL)] *)
Definition uci_play (board : Board) (limit : Limit) (ponder : bool)
  : M UCIEngine PlayResult :=
  fun self =>
    (engine_play (uci_engine self) board limit ponder,
     uci_with_engine (emit (Play board limit ponder) (uci_engine self)) self).

Definition UCIEngine_first_search (board : Board) (movetime : Z)
  : M UCIEngine (option Move) :=
  seconds ← eval (float_div movetime 1000);
  result ← uci_play board
    {| time := Some seconds; white_clock := None; black_clock := None |} false;
  modify (uci_with_info (info result));;
  mret (move result).

Definition UCIEngine_get_stats (self : UCIEngine) : list string :=
  get_handler_stats (uci_last_move_info self) ["depth"; "nps"; "nodes"; "score"].

(** [self.engine.configure(options)] *)
Definition uci_configure (options : Dict) : M UCIEngine unit :=
  modify (fun self => uci_with_engine (emit (Configure options) (uci_engine self)) self).

Definition UCIEngine_get_opponent_info (game : Game) : M UCIEngine unit :=
  let name := name (opponent game) in
  protocol_config ← gets (fun self => config (uci_engine self));
  when (truthy_str name && bool_decide ("UCI_Opponent" ∈ protocol_config))
    (let rating :=
       match rating (opponent game) with
       | Some r => pretty r
       | None => "none"
       end in
     let title := str_or (title (opponent game)) "none" in
     let player_type := if String.eqb title "BOT" then "computer" else "human" in
     uci_configure
       [("UCI_Opponent",
         PyStr (title +:+ " " +:+ rating +:+ " " +:+ player_type +:+ " "
                +:+ fmt_str name))]).

(** ** [XBoardEngine] *)

(** [minutes], [seconds] and [inc] are assigned by [set_time_control] only. *)
Record XBoardEngine := {
  xb_engine : Engine;
  xb_minutes : option Z;
  xb_seconds : option Z;
  xb_inc : option Z;
  xb_last_move_info : gmap string InfoVal;
  xb_time_control_sent : bool;
}.

Definition xb_with_engine (e : Engine) (self : XBoardEngine) : XBoardEngine :=
  {| xb_engine := e;
     xb_minutes := xb_minutes self;
     xb_seconds := xb_seconds self;
     xb_inc := xb_inc self;
     xb_last_move_info := xb_last_move_info self;
     xb_time_control_sent := xb_time_control_sent self |}.

Definition xb_with_info (i : gmap string InfoVal) (self : XBoardEngine)
  : XBoardEngine :=
  {| xb_engine := xb_engine self;
     xb_minutes := xb_minutes self;
     xb_seconds := xb_seconds self;
     xb_inc := xb_inc self;
     xb_last_move_info := i;
     xb_time_control_sent := xb_time_control_sent self |}.

Definition xb_with_time_control_sent (b : bool) (self : XBoardEngine)
  : XBoardEngine :=
  {| xb_engine := xb_engine self;
     xb_minutes := xb_minutes self;
     xb_seconds := xb_seconds self;
     xb_inc := xb_inc self;
     xb_last_move_info := xb_last_move_info self;
     xb_time_control_sent := b |}.

(** [features["egt"].split(",") if "egt" in features else []] *)
Definition egt_types_from_engine (features : gmap string FeatVal)
  : Res (list string) :=
  match features !! "egt" with
  | Some (FStr s) => Ok (split_on ","%char s)
  | Some (FInt _) => Raise (AttributeError "split")
  | None => Ok []
  end.

(** The loop [options[f"egtpath {egt_type}"] = egt_paths[egt_type]]. *)
Fixpoint add_egt_paths (egt_paths : PyVal) (egt_types : list string)
    (options : Dict) : Res Dict :=
  match egt_types with
  | [] => Ok options
  | egt_type :: rest =>
      path ← getitem egt_paths egt_type;
      add_egt_paths egt_paths rest
        (dict.set ("egtpath " +:+ egt_type) path options)
  end.

Definition XBoardEngine_init (commands : list string) (options : Dict)
    (silence_stderr : bool) : Res XBoardEngine :=
  engine ← popen_xboard commands silence_stderr;
  let egt_paths := get_or_empty "egtpath" options in
  let options := dict.remove "egtpath" options in
  egt_types ← egt_types_from_engine (features engine);
  options ← add_egt_paths egt_paths egt_types options;
  engine_configure engine options;;
  mret {| xb_engine := emit (Configure options) engine;
          xb_minutes := None;
          xb_seconds := None;
          xb_inc := None;
          xb_last_move_info := ∅;
          xb_time_control_sent := false |}.

(** [XBoardEngine(commands, options, silence_stderr)] with [options] as the
    signature has it, [None] when left out: the engine is started first, and
    [None.pop] raises. *)
Definition XBoardEngine_new (commands : list string) (options : option Dict)
    (silence_stderr : bool) : Res XBoardEngine :=
  match options with
  | Some options => XBoardEngine_init commands options silence_stderr
  | None =>
      popen_xboard commands silence_stderr;;
      Raise (AttributeError "pop")
  end.

Definition XBoardEngine_set_time_control (game : Game) : M XBoardEngine unit :=
  modify (fun self =>
    {| xb_engine := xb_engine self;
       xb_minutes := Some ((clock_initial game `div` 1000) `div` 60);
       xb_seconds := Some ((clock_initial game `div` 1000) `mod` 60);
       xb_inc := Some (clock_increment game `div` 1000);
       xb_last_move_info := xb_last_move_info self;
       xb_time_control_sent := xb_time_control_sent self |}).

(** [self.engine.protocol.send_line(line)] *)
Definition xb_send_line (line : string) : M XBoardEngine unit :=
  modify (fun self => xb_with_engine (emit (SendLine line) (xb_engine self)) self).

Definition level_command (minutes seconds inc : Z) : string :=
  "level 0 " +:+ pretty minutes +:+ ":" +:+ pretty seconds +:+ " " +:+ pretty inc.

Definition XBoardEngine_send_time : M XBoardEngine unit :=
  minutes ← attr "minutes" xb_minutes;
  seconds ← attr "seconds" xb_seconds;
  inc ← attr "inc" xb_inc;
  xb_send_line (level_command minutes seconds inc);;
  modify (xb_with_time_control_sent true).

Definition xb_play (board : Board) (limit : Limit) (ponder : bool)
  : M XBoardEngine PlayResult :=
  fun self =>
    (engine_play (xb_engine self) board limit ponder,
     xb_with_engine (emit (Play board limit ponder) (xb_engine self)) self).

Definition XBoardEngine_first_search (board : Board) (movetime : Z)
  : M XBoardEngine (option Move) :=
  result ← xb_play board
    {| time := Some (floor_div movetime 1000);
       white_clock := None; black_clock := None |} false;
  modify (xb_with_info (info result));;
  mret (move result).

Definition XBoardEngine_search_with_ponder (board : Board)
    (wtime btime winc binc : Z) (ponder : bool)
  : M XBoardEngine (option Move * option Move) :=
  time_control_sent ← gets xb_time_control_sent;
  when (negb time_control_sent) XBoardEngine_send_time;;
  let time_limit :=
    {| time := None;
       white_clock := Some (true_div wtime 1000);
       black_clock := Some (true_div btime 1000) |} in
  result ← xb_play board time_limit ponder;
  modify (xb_with_info (info result));;
  mret (move result, None).

Definition XBoardEngine_get_stats (self : XBoardEngine) : list string :=
  get_handler_stats (xb_last_move_info self) ["depth"; "nodes"; "score"].

Definition XBoardEngine_get_opponent_info (game : Game) : M XBoardEngine unit :=
  features ← gets (fun self => features (xb_engine self));
  when (truthy_str (name (opponent game))
        && match features !! "name" with
           | Some allowed => feat_truthy allowed
           | None => true
           end)
    (let title :=
       match title (opponent game) with
       | Some (String _ _ as t) => t +:+ " "
       | _ => ""
       end in
     xb_send_line ("name " +:+ title +:+ fmt_str (name (opponent game))));;
  when (bool_decide (rating (me game) ≠ None)
        && bool_decide (rating (opponent game) ≠ None))
    (xb_send_line ("rating " +:+ fmt_int (rating (me game)) +:+ " "
                   +:+ fmt_int (rating (opponent game))));;
  when (bool_decide (title (opponent game) = Some "BOT"))
    (xb_send_line "computer").

(** ** [create_engine]

    One attempt of the body; the [backoff] decorator re-runs it on any
    exception and re-raises the last one when its time is up. *)

Inductive EngineWrapper :=
| UCI (self : UCIEngine)
| XBoard (self : XBoardEngine).

(** [os.path.join(a, b)] *)
Definition os_path_join (a b : PyVal) : Res string :=
  match a, b with
  | PyStr a, PyStr b => Ok (path_join a b)
  | _, _ => Raise (TypeError "expected str, bytes or os.PathLike object")
  end.

(** [engine_type + "_options"] *)
Definition add_str (v : PyVal) (suffix : string) : Res string :=
  match v with
  | PyStr s => Ok (s +:+ suffix)
  | _ => Raise (TypeError "unsupported operand type(s) for +")
  end.

Definition launch_flags (engine_options : PyVal) : Res (list string) :=
  if truthy engine_options then
    items ← items_of engine_options;
    mret (map (fun '(k, v) => "--" +:+ k +:+ "=" +:+ py_str str_dict v) items)
  else mret [].

Definition create_engine (config : Dict) : Res EngineWrapper :=
  cfg ← getitem (PyDict config) "engine";
  dir ← getitem cfg "dir";
  name ← getitem cfg "name";
  engine_path ← os_path_join dir name;
  cfg ← items_of cfg;
  let engine_type := default PyNone (dict.get "protocol" cfg) in
  let engine_options := default PyNone (dict.get "engine_options" cfg) in
  flags ← launch_flags engine_options;
  let commands := engine_path :: flags in
  let silence_stderr := default (PyBool false) (dict.get "silence_stderr" cfg) in
  let Engine :=
    if eq_str engine_type "xboard"
    then fun commands options silence_stderr =>
           XBoard <$> XBoardEngine_init commands options silence_stderr
    else fun commands options silence_stderr =>
           UCI <$> UCIEngine_init commands options silence_stderr in
  key ← add_str engine_type "_options";
  options ← remove_managed_options <$> items_of (get_or_empty key cfg);
  Engine commands options (truthy silence_stderr).

(** ** Engines used in the concrete runs *)

(** An engine that has just been started and declares nothing. *)
Definition bare_engine : Engine :=
  {| features := ∅; config := ∅; trace := [] |}.

(** An engine that accepts the opponent's identity under either protocol. *)
Definition opponent_aware_engine : Engine :=
  {| features := {["name" := FInt 1]}; config := {["UCI_Opponent"]}; trace := [] |}.

(** An XBoard engine that advertises two tablebase formats. *)
Definition two_egt_engine : Engine :=
  {| features := {["egt" := FStr "gaviota,nalimov"]}; config := ∅; trace := [] |}.

(** Adapters as the constructors leave them, engine aside. *)
Definition uci_on (engine : Engine) : UCIEngine :=
  {| uci_go_commands := PyDict [];
     uci_engine := engine;
     uci_last_move_info := ∅ |}.

Definition xboard_on (engine : Engine) : XBoardEngine :=
  {| xb_engine := engine;
     xb_minutes := None;
     xb_seconds := None;
     xb_inc := None;
     xb_last_move_info := ∅;
     xb_time_control_sent := false |}.

(** An engine that answers every search with an empty result. *)
Definition silent_play : Engine -> Board -> Limit -> bool -> Res PlayResult :=
  fun _ _ _ _ => Ok {| move := None; ponder := None; info := ∅ |}.

(** ** A caller's sequence of searches

    Each [search_with_ponder] call runs on the adapter as the previous call
    left it, whether that call returned or raised. *)

Record SearchCall := {
  call_board : Board;
  call_wtime : Z;
  call_btime : Z;
  call_winc : Z;
  call_binc : Z;
  call_ponder : bool;
}.

Definition search_with_ponder_call (c : SearchCall)
  : M XBoardEngine (option Move * option Move) :=
  XBoardEngine_search_with_ponder (call_board c) (call_wtime c) (call_btime c)
    (call_winc c) (call_binc c) (call_ponder c).

Definition search_calls (calls : list SearchCall) (self : XBoardEngine)
  : XBoardEngine :=
  foldl (fun self c => state (search_with_ponder_call c self)) self calls.

(** The [play] call a search makes. *)
Definition search_play (c : SearchCall) : Event :=
  Play (call_board c)
    {| time := None;
       white_clock := Some (true_div (call_wtime c) 1000);
       black_clock := Some (true_div (call_btime c) 1000) |}
    (call_ponder c).

(** ** The remaining methods *)

(** [for x in l: body(x)] *)
Fixpoint for_each {S A} (l : list A) (body : A -> M S unit) : M S unit :=
  match l with
  | [] => mret tt
  | x :: l' => body x;; for_each l' body
  end.

(** [print(line)]: standard output is the list of the lines printed so far. *)
Definition print (line : string) : M (list string) unit :=
  modify (fun stdout => (stdout ++ [line])%list).

Definition print_handler_stats (info : gmap string InfoVal) (stats : list string)
  : M (list string) unit :=
  for_each stats (fun stat =>
    match info !! stat with
    | Some v => print ("    " +:+ stat +:+ ": " +:+ info_str v)
    | None => mret tt
    end).

Definition UCIEngine_print_stats (self : UCIEngine) : M (list string) unit :=
  print_handler_stats (uci_last_move_info self)
    ["string"; "depth"; "nps"; "nodes"; "score"].

Definition XBoardEngine_print_stats (self : XBoardEngine) : M (list string) unit :=
  print_handler_stats (xb_last_move_info self) ["depth"; "nodes"; "score"].

(** [self.engine.protocol.send_line(line)] *)
Definition uci_send_line (line : string) : M UCIEngine unit :=
  modify (fun self => uci_with_engine (emit (SendLine line) (uci_engine self)) self).

Definition UCIEngine_stop : M UCIEngine unit := uci_send_line "stop".

Definition UCIEngine_ponderhit : M UCIEngine unit := uci_send_line "ponderhit".

Definition XBoardEngine_stop : M XBoardEngine unit := xb_send_line "?".

(** ** A caller's sequence of method calls on one XBoard adapter

    As for the searches: each call runs on the adapter as the previous call
    left it, whether that call returned or raised. *)

Inductive XBoardCall :=
| CallFirstSearch (board : Board) (movetime : Z)
| CallSearchWithPonder (c : SearchCall)
| CallStop
| CallGetOpponentInfo (game : Game).

Definition xboard_call (c : XBoardCall) (self : XBoardEngine) : XBoardEngine :=
  match c with
  | CallFirstSearch board movetime =>
      state (XBoardEngine_first_search board movetime self)
  | CallSearchWithPonder c => state (search_with_ponder_call c self)
  | CallStop => state (XBoardEngine_stop self)
  | CallGetOpponentInfo game => state (XBoardEngine_get_opponent_info game self)
  end.

Definition xboard_calls (calls : list XBoardCall) (self : XBoardEngine)
  : XBoardEngine :=
  foldl (fun self c => xboard_call c self) self calls.

Definition is_search_with_ponder (c : XBoardCall) : bool :=
  match c with
  | CallSearchWithPonder _ => true
  | _ => false
  end.

(** The level commands among the events of a trace. *)
Definition level_lines (events : list Event) : list string :=
  omap (fun ev =>
          match ev with
          | SendLine line => if String.prefix "level " line then Some line else None
          | _ => None
          end) events.

(** ** Properties *)

(** *** The managed-option filter *)

Lemma dict_get_filter (keep : string -> bool) (d : Dict) (k : string) :
  dict.get k (filter (fun item => keep item.1 = true) d)
  = if keep k then dict.get k d else None.
Proof.
  induction d as [|[k' v] d IH]; simpl.
  - by destruct (keep k).
  - rewrite filter_cons. simpl.
    destruct (String.eqb_spec k k') as [->|Hne].
    + destruct (decide (keep k' = true)) as [Hk|Hk]; simpl.
      * by rewrite String.eqb_refl, Hk.
      * rewrite IH. by destruct (keep k').
    + destruct (decide (keep k' = true)); simpl; [|done].
      by destruct (String.eqb_spec k k').
Qed.

(** On a mapping with [str] keys the comprehension is the filter. *)
Lemma remove_managed_options_items_str_keyed (items : Dict) :
  remove_managed_options_items (str_keyed items)
  = Ok (str_keyed (remove_managed_options items)).
Proof.
  unfold remove_managed_options, str_keyed.
  induction items as [|[k v] items IH]; [done|].
  rewrite filter_cons. simpl. unfold mbind, Res_bind. rewrite IH. simpl.
  destruct (is_managed k); by destruct (decide _).
Qed.

(** It returns for no other mapping. *)
Lemma remove_managed_options_items_Ok_inv (config kept : Items) :
  remove_managed_options_items config = Ok kept →
  ∃ items, config = str_keyed items.
Proof.
  revert kept. induction config as [|[key value] config IH]; intros kept.
  - by exists [].
  - simpl. unfold mbind, Res_bind.
    destruct key as [| | |name]; simpl; [done..|].
    destruct (remove_managed_options_items config) as [kept'|]; [|done].
    intros _. destruct (IH kept' eq_refl) as [items ->].
    by exists ((name, value) :: items).
Qed.

(** A key that is not a [str] makes it raise, wherever the key stands. *)
Lemma remove_managed_options_items_raise (config : Items) (key : PyKey)
    (value : PyVal) :
  (key, value) ∈ config →
  (∀ name, key ≠ KStr name) →
  remove_managed_options_items config = Raise (AttributeError "lower").
Proof.
  intros Hin Hkey.
  induction config as [|[key' value'] config IH]; [by apply elem_of_nil in Hin|].
  simpl. unfold mbind, Res_bind.
  destruct key' as [| | |name]; simpl; [done..|].
  apply elem_of_cons in Hin as [[= -> ->]|Hin]; [by destruct (Hkey name)|].
  by rewrite (IH Hin).
Qed.


(** *** Statistics of the last search *)

(** The loop of [get_handler_stats] keeps, in order, one rendered entry for
    each queried name the info has. *)
Lemma get_handler_stats_acc (info : gmap string InfoVal) (stats acc : list string) :
  foldl (fun stats_str stat =>
           match info !! stat with
           | Some v => (stats_str ++ [stat +:+ ": " +:+ info_str v])%list
           | None => stats_str
           end) acc stats
  = (acc ++ omap (fun stat => (fun v => stat +:+ ": " +:+ info_str v) <$> info !! stat)
                 stats)%list.
Proof.
  revert acc. induction stats as [|stat stats IH]; intros acc; simpl.
  - by rewrite app_nil_r.
  - rewrite IH. destruct (info !! stat); simpl; [|done].
    by rewrite <- app_assoc.
Qed.

Lemma get_handler_stats_omap (info : gmap string InfoVal) (stats : list string) :
  get_handler_stats info stats
  = omap (fun stat => (fun v => stat +:+ ": " +:+ info_str v) <$> info !! stat) stats.
Proof. unfold get_handler_stats. by rewrite get_handler_stats_acc. Qed.

Lemma get_handler_stats_empty (stats : list string) :
  get_handler_stats ∅ stats = [].
Proof.
  rewrite get_handler_stats_omap.
  induction stats as [|stat stats IH]; simpl; [done|].
  by rewrite lookup_empty.
Qed.

(** Decides every membership question about the entries of a concrete list
    of queried names. *)
Local Ltac stat_entries :=
  rewrite get_handler_stats_omap; simpl;
  repeat match goal with
         | |- context [?info !! ?stat] =>
             let E := fresh "E" in destruct (info !! stat) eqn:E; simpl
         end;
  rewrite ?elem_of_cons, ?elem_of_nil;
  (split;
   [ intros H; repeat destruct H as [H|H]; try contradiction; simplify_eq; eauto
   | intros (? & ? & ->); simplify_eq; auto 10 ]).

(** C6: [get_stats] of either adapter contains a ["name: value"] entry for
    a queried name exactly when the name is a key of the last search's
    info, and the entry then renders the value stored there; the list holds
    nothing else, so nothing is defaulted. The function is total, and the
    empty info gives the empty list. *)
Theorem get_stats_only_present_keys :
  (∀ self : UCIEngine,
      Forall (fun stat => ∀ text,
                  stat +:+ ": " +:+ text ∈ UCIEngine_get_stats self
                  ↔ ∃ v, uci_last_move_info self !! stat = Some v
                         ∧ text = info_str v)
             ["depth"; "nps"; "nodes"; "score"])
  ∧ (∀ self : XBoardEngine,
      Forall (fun stat => ∀ text,
                  stat +:+ ": " +:+ text ∈ XBoardEngine_get_stats self
                  ↔ ∃ v, xb_last_move_info self !! stat = Some v
                         ∧ text = info_str v)
             ["depth"; "nodes"; "score"])
  ∧ (∀ (self : UCIEngine) entry,
      entry ∈ UCIEngine_get_stats self →
      ∃ stat v, stat ∈ ["depth"; "nps"; "nodes"; "score"]
                ∧ uci_last_move_info self !! stat = Some v
                ∧ entry = stat +:+ ": " +:+ info_str v)
  ∧ (∀ (self : XBoardEngine) entry,
      entry ∈ XBoardEngine_get_stats self →
      ∃ stat v, stat ∈ ["depth"; "nodes"; "score"]
                ∧ xb_last_move_info self !! stat = Some v
                ∧ entry = stat +:+ ": " +:+ info_str v)
  ∧ (∀ self : UCIEngine,
      uci_last_move_info self = ∅ → UCIEngine_get_stats self = [])
  ∧ (∀ self : XBoardEngine,
      xb_last_move_info self = ∅ → XBoardEngine_get_stats self = []).
Proof.
  split; [|split; [|split; [|split; [|split]]]].
  - intros self. unfold UCIEngine_get_stats.
    repeat apply Forall_cons_2; [..|apply Forall_nil_2]; intros text.
    all: stat_entries.
  - intros self. unfold XBoardEngine_get_stats.
    repeat apply Forall_cons_2; [..|apply Forall_nil_2]; intros text.
    all: stat_entries.
  - intros self entry. unfold UCIEngine_get_stats.
    rewrite get_handler_stats_omap, list_elem_of_omap.
    intros (stat & Hin & Hentry).
    destruct (uci_last_move_info self !! stat) as [v|] eqn:E; [|done].
    exists stat, v. by simplify_eq/=.
  - intros self entry. unfold XBoardEngine_get_stats.
    rewrite get_handler_stats_omap, list_elem_of_omap.
    intros (stat & Hin & Hentry).
    destruct (xb_last_move_info self !! stat) as [v|] eqn:E; [|done].
    exists stat, v. by simplify_eq/=.
  - intros self E. unfold UCIEngine_get_stats. rewrite E.
    apply get_handler_stats_empty.
  - intros self E. unfold XBoardEngine_get_stats. rewrite E.
    apply get_handler_stats_empty.
Qed.

(** *** The search limit of [first_search] *)

Open Scope Z_scope.

Lemma round_half_even_exact (k d : Z) : 0 < d → round_half_even (k * d) d = k.
Proof.
  intros Hd. unfold round_half_even.
  rewrite Z.div_mul, Z.mod_mul by lia.
  destruct (Z.ltb_spec (2 * 0) d); [done|lia].
Qed.

(** Rounding moves a quotient by at most one half. *)
Lemma round_half_even_error (n d : Z) :
  0 < d → -d ≤ 2 * (round_half_even n d * d - n) ≤ d.
Proof.
  intros Hd. unfold round_half_even.
  pose proof (Z.div_mod n d ltac:(lia)) as Hdm.
  pose proof (Z.mod_pos_bound n d Hd) as Hr.
  destruct (Z.ltb_spec (2 * (n `mod` d)) d); [nia|].
  destruct (Z.ltb_spec d (2 * (n `mod` d))); [nia|].
  destruct (Z.even (n `div` d)); nia.
Qed.

Lemma round_half_even_above (n d k : Z) :
  0 < d → d < 2 * (n - k * d) → k < round_half_even n d.
Proof.
  intros Hd Hgt. pose proof (round_half_even_error n d Hd) as Herr. nia.
Qed.

(** A move time of at most [1000 * 2 ^ 44] milliseconds is a number of
    seconds between [2 ^ -10] and [2 ^ 44]. *)
Lemma floor_log2_ratio_1000 (a : Z) :
  0 < a → a ≤ 1000 * 2 ^ 44 →
  -10 ≤ floor_log2_ratio a 1000 ≤ 44
  ∧ (a < 1000 * 2 ^ 44 → floor_log2_ratio a 1000 ≤ 43).
Proof.
  intros Hpos Hle. unfold floor_log2_ratio.
  destruct (Z.leb_spec 1000 a) as [Hbig|Hsmall].
  - assert (1 ≤ a `div` 1000) by (apply Z.div_le_lower_bound; lia).
    assert (a `div` 1000 ≤ 2 ^ 44) by (apply Z.div_le_upper_bound; lia).
    pose proof (Z.log2_nonneg (a `div` 1000)).
    pose proof (Z.log2_le_mono (a `div` 1000) (2 ^ 44) ltac:(done)) as Hmono.
    rewrite Z.log2_pow2 in Hmono by done.
    split; [lia|]. intros Hlt.
    assert (a `div` 1000 < 2 ^ 44) by (apply Z.div_lt_upper_bound; lia).
    assert (Z.log2 (a `div` 1000) < 44) by (apply Z.log2_lt_pow2; lia).
    lia.
  - assert (1 ≤ (1000 + a - 1) `div` a) by (apply Z.div_le_lower_bound; lia).
    assert ((1000 + a - 1) `div` a ≤ 1000) by (apply Z.div_le_upper_bound; nia).
    pose proof (Z.log2_up_nonneg ((1000 + a - 1) `div` a)).
    pose proof (Z.log2_up_le_mono ((1000 + a - 1) `div` a) 1000 ltac:(done)) as Hmono.
    change (Z.log2_up 1000) with 10 in Hmono. lia.
Qed.

(** In that range the float has at least eight binary places, nine below
    [2 ^ 44] seconds. *)
Lemma float_div_value_1000 (a : Z) :
  0 < a → a ≤ 1000 * 2 ^ 44 →
  ∃ m s,
    float_div_value a 1000 = Some (Q2Qc (m # Z.to_pos (2 ^ s)))
    ∧ 8 ≤ s ≤ 62
    ∧ (a < 1000 * 2 ^ 44 → 9 ≤ s)
    ∧ m = round_half_even (a * 2 ^ s) 1000.
Proof.
  intros Hpos Hle. unfold float_div_value, binary64_of_ratio.
  destruct (Z.eqb_spec a 0); [lia|].
  rewrite Z.abs_eq, Z.sgn_pos by lia.
  destruct (floor_log2_ratio_1000 a Hpos Hle) as [HL HL'].
  set (L := floor_log2_ratio a 1000) in *.
  rewrite Z.max_l by lia.
  destruct (Z.leb_spec 0 (L - 52)); [lia|]. simpl.
  unfold binary64_value. destruct (Z.leb_spec 0 (L - 52)); [lia|].
  exists (round_half_even (a * 2 ^ (- (L - 52))) 1000), (- (L - 52)).
  rewrite Z.mul_1_l. split; [done|]. split; [lia|]. split; [|done].
  intros Hlt. specialize (HL' Hlt). lia.
Qed.

(** The float of [a / 1000] up to [2 ^ 44] seconds: within [2 ^ -10] of the
    quotient, and a whole number exactly when [a] is a multiple of 1000. *)
Lemma float_div_value_1000_seconds (a : Z) :
  0 ≤ a → a ≤ 1000 * 2 ^ 44 →
  ∃ seconds,
    float_div_value a 1000 = Some seconds
    ∧ (seconds = Q2Qc (inject_Z (a `div` 1000)) ↔ a `mod` 1000 = 0)
    ∧ (Q2Qc (a # 1000) - Q2Qc (1 # 1024) <= seconds)%Qc
    ∧ (seconds <= Q2Qc (a # 1000) + Q2Qc (1 # 1024))%Qc.
Proof.
  intros Hnonneg Hle.
  destruct (decide (a = 0)) as [->|Hne].
  { exists (Q2Qc 0). split; [done|]. split; [done|]. split; by vm_compute. }
  destruct (float_div_value_1000 a ltac:(lia) Hle) as (m & s & Hdiv & Hs & Hs' & Hm).
  exists (Q2Qc (m # Z.to_pos (2 ^ s))). split; [done|].
  pose proof (Z.div_mod a 1000 ltac:(done)) as Hdm.
  pose proof (Z.mod_pos_bound a 1000 ltac:(done)) as Hr.
  assert (2 ^ 8 ≤ 2 ^ s) as HN by (apply Z.pow_le_mono_r; lia).
  assert (a < 1000 * 2 ^ 44 → 2 ^ 9 ≤ 2 ^ s) as HN'.
  { intros Hlt. apply Z.pow_le_mono_r; [done|]. by apply Hs'. }
  set (N := 2 ^ s) in *.
  pose proof (round_half_even_error (a * N) 1000 ltac:(done)) as Herr.
  rewrite <- Hm in Herr.
  assert (a `mod` 1000 = 0 → m = a `div` 1000 * N) as Hexact.
  { intros H0. rewrite Hm.
    replace (a * N) with (a `div` 1000 * N * 1000) by lia.
    by apply round_half_even_exact. }
  assert (a `mod` 1000 ≠ 0 → a `div` 1000 * N < m) as Habove.
  { intros Hnz. rewrite Hm. apply round_half_even_above; [done|].
    assert (a < 1000 * 2 ^ 44) as Hlt by lia. specialize (HN' Hlt). nia. }
  assert (a < 1000 * 2 ^ 44 ∨ a `mod` 1000 = 0) as Hcase.
  { destruct (decide (a < 1000 * 2 ^ 44)) as [|Hge]; [by left|right].
    assert (a = 1000 * 2 ^ 44) as -> by lia. done. }
  split; [|split].
  - rewrite Q2Qc_eq_iff. unfold Qeq. simpl. rewrite Z2Pos.id by lia.
    split.
    + intros Heq. destruct (decide (a `mod` 1000 = 0)) as [|Hnz]; [done|].
      specialize (Habove Hnz). lia.
    + intros H0. rewrite (Hexact H0). lia.
  - unfold Qcle, Qcminus, Qcplus, Qcopp. simpl. rewrite !Qred_correct.
    unfold Qle. simpl. rewrite Z2Pos.id by lia.
    change (Z.pos (1000 * 1024)) with 1024000.
    destruct Hcase as [Hlt|H0]; [specialize (HN' Hlt)|specialize (Hexact H0)]; nia.
  - unfold Qcle, Qcminus, Qcplus, Qcopp. simpl. rewrite !Qred_correct.
    unfold Qle. simpl. rewrite Z2Pos.id by lia.
    change (Z.pos (1000 * 1024)) with 1024000.
    destruct Hcase as [Hlt|H0]; [specialize (HN' Hlt)|specialize (Hexact H0)]; nia.
Qed.

Open Scope string_scope.


(** *** Telling the engine about the opponent *)

Lemma truthy_str_true (o : option string) :
  truthy_str o = true ↔ ∃ s, o = Some s ∧ s ≠ "".
Proof.
  destruct o as [[|c s]|]; simpl; split; try done.
  - by intros (s & [= <-] & ?).
  - intros _. by eexists.
  - by intros (s & ? & ?).
Qed.

Lemma truthy_str_false (o : option string) :
  truthy_str o = false ↔ o = None ∨ o = Some "".
Proof.
  destruct o as [[|c s]|]; simpl; split; auto; try done.
  by intros [?|?].
Qed.

(** What [UCIEngine.get_opponent_info] does, branch by branch. *)
Lemma UCIEngine_get_opponent_info_run (game : Game) (self : UCIEngine) :
  UCIEngine_get_opponent_info game self
  = if truthy_str (name (opponent game))
       && bool_decide ("UCI_Opponent" ∈ config (uci_engine self))
    then
      let title := str_or (title (opponent game)) "none" in
      (Ok tt,
       uci_with_engine
         (emit (Configure
                  [("UCI_Opponent",
                    PyStr (title +:+ " "
                           +:+ match rating (opponent game) with
                               | Some r => pretty r
                               | None => "none"
                               end +:+ " "
                           +:+ (if String.eqb title "BOT" then "computer" else "human")
                           +:+ " " +:+ fmt_str (name (opponent game))))])
               (uci_engine self))
         self)
    else (Ok tt, self).
Proof.
  unfold UCIEngine_get_opponent_info, mbind, M_bind, bind, gets. simpl.
  by destruct (truthy_str _ && bool_decide _).
Qed.

(** C9: when the opponent has no name ([None] or the empty string),
    [UCIEngine.get_opponent_info] returns without touching the engine or
    the adapter, even when the engine declares [UCI_Opponent]. *)
Theorem UCIEngine_get_opponent_info_nameless (game : Game) (self : UCIEngine) :
  name (opponent game) = None ∨ name (opponent game) = Some "" →
  UCIEngine_get_opponent_info game self = (Ok tt, self).
Proof.
  intros Hname%truthy_str_false.
  by rewrite UCIEngine_get_opponent_info_run, Hname.
Qed.

(** C4 (amended): when the opponent has a non-empty name and the engine
    declares [UCI_Opponent], [UCIEngine.get_opponent_info] sends one
    configuration update, of [UCI_Opponent] alone, whose value is
    ["<title> <rating> <player_type> <name>"]: the rating in decimal or
    ["none"] when absent, the title or ["none"] when absent or empty, the
    player type ["computer"] when the title is ["BOT"] and ["human"]
    otherwise. For Magnus, unrated, titled BOT, the value is
    ["BOT none computer Magnus"]. *)
Theorem UCIEngine_get_opponent_info_value
    (game : Game) (self : UCIEngine) (opponent_name : string) :
  name (opponent game) = Some opponent_name →
  opponent_name ≠ "" →
  "UCI_Opponent" ∈ config (uci_engine self) →
  ∃ title_text rating_text player_type : string,
    UCIEngine_get_opponent_info game self
    = (Ok tt,
       uci_with_engine
         (emit (Configure
                  [("UCI_Opponent",
                    PyStr (title_text +:+ " " +:+ rating_text +:+ " "
                           +:+ player_type +:+ " " +:+ opponent_name))])
               (uci_engine self))
         self)
    ∧ (rating (opponent game) = None → rating_text = "none")
    ∧ (∀ r, rating (opponent game) = Some r → rating_text = pretty r)
    ∧ (title (opponent game) = None ∨ title (opponent game) = Some "" →
       title_text = "none")
    ∧ (∀ t, title (opponent game) = Some t → t ≠ "" → title_text = t)
    ∧ (player_type = "computer" ↔ title (opponent game) = Some "BOT")
    ∧ (player_type = "human" ↔ title (opponent game) ≠ Some "BOT")
    ∧ (opponent game
       = {| name := Some "Magnus"; rating := None; title := Some "BOT" |} →
       title_text +:+ " " +:+ rating_text +:+ " " +:+ player_type +:+ " "
       +:+ opponent_name
       = "BOT none computer Magnus").
Proof.
  intros Hname Hne Hcap.
  rewrite UCIEngine_get_opponent_info_run, Hname.
  rewrite (proj2 (truthy_str_true (Some opponent_name))) by eauto.
  rewrite bool_decide_eq_true_2 by done. simpl.
  eexists _, _, _. split; [reflexivity|].
  destruct (opponent game) as [nm rt tt]; simpl in *.
  split; [by intros ->|].
  split; [by intros r ->|].
  split; [by intros [-> | ->]|].
  split; [intros t -> Ht; by destruct t|].
  assert (String.eqb (str_or tt "none") "BOT" = true ↔ tt = Some "BOT") as Hbot.
  { rewrite String.eqb_eq.
    destruct tt as [[|c t]|]; simpl; split; intros H; by simplify_eq. }
  destruct (String.eqb (str_or tt "none") "BOT").
  all: split; [|split].
  - split; [intros _; by apply Hbot|done].
  - split; [done|]. intros Hn. exfalso. apply Hn. by apply Hbot.
  - intros [= -> -> ->]. by simplify_eq.
  - split; [done|]. intros Heq. by apply Hbot in Heq.
  - split; [|done]. intros _ Heq. by apply Hbot in Heq.
  - intros [= -> -> ->]. by discriminate (proj2 Hbot eq_refl).
Qed.

(** The lines [XBoardEngine.get_opponent_info] sends, in order. *)
Lemma XBoardEngine_get_opponent_info_run (game : Game) (self : XBoardEngine) :
  let engine := xb_engine self in
  let name_line :=
    if truthy_str (name (opponent game))
       && match features engine !! "name" with
          | Some allowed => feat_truthy allowed
          | None => true
          end
    then ["name "
          +:+ match title (opponent game) with
              | Some (String _ _ as t) => t +:+ " "
              | _ => ""
              end
          +:+ fmt_str (name (opponent game))]
    else [] in
  let rating_line :=
    if bool_decide (rating (me game) ≠ None)
       && bool_decide (rating (opponent game) ≠ None)
    then ["rating " +:+ fmt_int (rating (me game)) +:+ " "
          +:+ fmt_int (rating (opponent game))]
    else [] in
  let computer_line :=
    if bool_decide (title (opponent game) = Some "BOT") then ["computer"] else [] in
  XBoardEngine_get_opponent_info game self
  = (Ok tt,
     xb_with_engine
       {| features := features engine;
          config := config engine;
          trace := (trace engine
                    ++ map SendLine (name_line ++ rating_line ++ computer_line))%list |}
       self).
Proof.
  destruct self as [[feats conf tr] mins secs inc info sent].
  unfold XBoardEngine_get_opponent_info, mbind, M_bind, bind, gets, when,
    xb_send_line, modify, ret, xb_with_engine, emit.
  simpl.
  destruct (truthy_str _ && _), (bool_decide _ && bool_decide _),
    (bool_decide (title _ = _)); simpl;
    rewrite <- ?app_assoc, ?app_nil_r; reflexivity.
Qed.

Lemma name_allowed_spec (feats : gmap string FeatVal) :
  match feats !! "name" with
  | Some allowed => feat_truthy allowed
  | None => true
  end = true
  ↔ ¬ ∃ v, feats !! "name" = Some v ∧ feat_truthy v = false.
Proof.
  destruct (feats !! "name") as [v|]; [|split; [intros _ (? & ? & ?)|]; done].
  destruct (feat_truthy v) eqn:E; split; try done.
  - intros _ (v' & [= <-] & ?). congruence.
  - intros H. exfalso. apply H. eauto.
Qed.

(** C5 (amended): [XBoardEngine.get_opponent_info] always returns, changes
    nothing but the trace, and sends at most three lines, in this order and
    each under its own condition: the name line exactly when the opponent's
    name is non-empty and the feature table does not map ["name"] to a
    false value; the rating line exactly when both ratings are present; the
    line ["computer"] exactly when the opponent's title is ["BOT"]. *)
Theorem XBoardEngine_get_opponent_info_lines (game : Game) (self : XBoardEngine) :
  let engine := xb_engine self in
  ∃ name_line rating_line computer_line : list string,
    XBoardEngine_get_opponent_info game self
    = (Ok tt,
       xb_with_engine
         {| features := features engine;
            config := config engine;
            trace := (trace engine
                      ++ map SendLine (name_line ++ rating_line ++ computer_line))%list |}
         self)
    ∧ (((∃ n, name (opponent game) = Some n ∧ n ≠ "")
        ∧ (¬ ∃ v, features engine !! "name" = Some v ∧ feat_truthy v = false))
       ∧ (∃ n prefix, name (opponent game) = Some n
                      ∧ name_line = ["name " +:+ prefix +:+ n]
                      ∧ ((title (opponent game) = None
                          ∨ title (opponent game) = Some "")
                         ∧ prefix = ""
                         ∨ (∃ t, title (opponent game) = Some t ∧ t ≠ ""
                                 ∧ prefix = t +:+ " ")))
       ∨ ¬ ((∃ n, name (opponent game) = Some n ∧ n ≠ "")
            ∧ (¬ ∃ v, features engine !! "name" = Some v ∧ feat_truthy v = false))
         ∧ name_line = [])
    ∧ ((∃ mine theirs,
           rating (me game) = Some mine ∧ rating (opponent game) = Some theirs
           ∧ rating_line = ["rating " +:+ pretty mine +:+ " " +:+ pretty theirs])
       ∨ (rating (me game) = None ∨ rating (opponent game) = None)
         ∧ rating_line = [])
    ∧ (title (opponent game) = Some "BOT" ∧ computer_line = ["computer"]
       ∨ title (opponent game) ≠ Some "BOT" ∧ computer_line = []).
Proof.
  simpl. eexists _, _, _. split; [apply XBoardEngine_get_opponent_info_run|].
  split; [|split].
  - destruct (truthy_str _ && _) eqn:E.
    + apply andb_true_iff in E as [Hn Ha]. left.
      apply truthy_str_true in Hn as Hn'. apply name_allowed_spec in Ha.
      split; [done|]. destruct Hn' as (n & Hn' & Hne).
      rewrite Hn'. simpl.
      destruct (title (opponent game)) as [[|c t]|]; eexists n, _;
        (split; [done|]); (split; [reflexivity|]); eauto 10.
    + right. split; [|done]. intros [Hn Ha].
      apply truthy_str_true in Hn. apply name_allowed_spec in Ha.
      by rewrite Hn, Ha in E.
  - destruct (rating (me game)) as [mine|], (rating (opponent game)) as [theirs|];
      simpl; eauto 10.
  - case_bool_decide; eauto.
Qed.

(** C10: for an opponent with a non-empty name, the name line goes out
    first whenever the feature table has no ["name"] entry, and it is held
    back only when the table maps ["name"] to a false value ([0] or the
    empty string). *)
Theorem XBoardEngine_name_line_fail_open
    (game : Game) (self : XBoardEngine) (opponent_name : string) :
  name (opponent game) = Some opponent_name →
  opponent_name ≠ "" →
  let engine := xb_engine self in
  let sent :=
    drop (length (trace engine))
         (trace (xb_engine (state (XBoardEngine_get_opponent_info game self)))) in
  (features engine !! "name" = None →
   ∃ prefix, head sent = Some (SendLine ("name " +:+ prefix +:+ opponent_name)))
  ∧ ((∃ line, SendLine ("name " +:+ line) ∈ sent)
     ↔ ¬ ∃ v, features engine !! "name" = Some v ∧ feat_truthy v = false).
Proof.
  intros Hname Hne. simpl.
  rewrite XBoardEngine_get_opponent_info_run. unfold state. simpl.
  rewrite drop_app_length.
  rewrite (proj2 (truthy_str_true (name (opponent game)))) by eauto.
  rewrite Hname. simpl.
  split.
  - intros ->. simpl. eauto.
  - rewrite <- name_allowed_spec.
    destruct (match features (xb_engine self) !! "name" with
              | Some allowed => feat_truthy allowed
              | None => true
              end); simpl.
    + split; [done|]. intros _. eexists. apply list_elem_of_here.
    + split; [|done]. intros (line & Hin). exfalso.
      destruct (bool_decide _ && bool_decide _), (bool_decide (title _ = _));
        simpl in Hin;
        repeat (apply elem_of_cons in Hin as [Hin|Hin]; [by simplify_eq|]);
        by apply elem_of_nil in Hin.
Qed.

(** *** The one-shot time control of the XBoard adapter *)

Lemma XBoardEngine_init_flag (commands : list string) (options : Dict)
    (silence_stderr : bool) (self : XBoardEngine) :
  XBoardEngine_init commands options silence_stderr = Ok self →
  xb_time_control_sent self = false
  ∧ xb_minutes self = None ∧ xb_seconds self = None ∧ xb_inc self = None.
Proof.
  unfold XBoardEngine_init, mbind, Res_bind.
  destruct (popen_xboard _ _); [|done].
  destruct (egt_types_from_engine _); [|done].
  destruct (add_egt_paths _ _ _); [|done].
  destruct (engine_configure _ _); [|done].
  by intros [= <-].
Qed.

Lemma XBoardEngine_send_time_run (self : XBoardEngine) (minutes seconds inc : Z) :
  xb_minutes self = Some minutes →
  xb_seconds self = Some seconds →
  xb_inc self = Some inc →
  XBoardEngine_send_time self
  = (Ok tt,
     xb_with_time_control_sent true
       (xb_with_engine
          (emit (SendLine (level_command minutes seconds inc)) (xb_engine self))
          self)).
Proof.
  intros Hm Hs Hi.
  unfold XBoardEngine_send_time, mbind, M_bind, bind, attr.
  by rewrite Hm, Hs, Hi.
Qed.

(** One search on an adapter whose clock is recorded: the clock stays
    recorded, the flag is set afterwards, and the level command precedes the
    [play] call exactly when the flag was not set before. *)
Lemma search_with_ponder_call_step
    (self : XBoardEngine) (minutes seconds inc : Z) (c : SearchCall) :
  xb_minutes self = Some minutes →
  xb_seconds self = Some seconds →
  xb_inc self = Some inc →
  let self' := state (search_with_ponder_call c self) in
  xb_minutes self' = Some minutes
  ∧ xb_seconds self' = Some seconds
  ∧ xb_inc self' = Some inc
  ∧ xb_time_control_sent self' = true
  ∧ trace (xb_engine self')
    = (trace (xb_engine self)
       ++ (if xb_time_control_sent self then []
           else [SendLine (level_command minutes seconds inc)])
       ++ [search_play c])%list.
Proof.
  intros Hm Hs Hi. simpl.
  unfold search_with_ponder_call, XBoardEngine_search_with_ponder, search_play.
  unfold XBoardEngine_send_time, xb_send_line, attr.
  unfold mbind, M_bind, bind, gets, when, state, xb_play, modify, mret, M_ret, ret.
  destruct (xb_time_control_sent self) eqn:Hsent; cbn.
  - destruct (engine_play _ _ _ _); cbn; by rewrite ?Hsent.
  - rewrite Hm, Hs, Hi. cbn.
    destruct (engine_play _ _ _ _); cbn; by rewrite <- app_assoc.
Qed.

Lemma search_calls_after_sent
    (calls : list SearchCall) (self : XBoardEngine) (minutes seconds inc : Z) :
  xb_minutes self = Some minutes →
  xb_seconds self = Some seconds →
  xb_inc self = Some inc →
  xb_time_control_sent self = true →
  xb_time_control_sent (search_calls calls self) = true
  ∧ trace (xb_engine (search_calls calls self))
    = (trace (xb_engine self) ++ map search_play calls)%list.
Proof.
  revert self. induction calls as [|c calls IH]; intros self Hm Hs Hi Hsent; simpl.
  - by rewrite app_nil_r.
  - destruct (search_with_ponder_call_step self minutes seconds inc c Hm Hs Hi)
      as (Hm' & Hs' & Hi' & Hsent' & Htrace).
    destruct (IH _ Hm' Hs' Hi' Hsent') as [-> ->].
    split; [done|]. rewrite Htrace, Hsent. simpl. by rewrite <- app_assoc.
Qed.


(** [set_time_control] records the clock [send_time] needs. *)
Lemma XBoardEngine_set_time_control_records (game : Game) (self : XBoardEngine) :
  let self' := state (XBoardEngine_set_time_control game self) in
  xb_minutes self' = Some ((clock_initial game `div` 1000) `div` 60)
  ∧ xb_seconds self' = Some ((clock_initial game `div` 1000) `mod` 60)
  ∧ xb_inc self' = Some (clock_increment game `div` 1000)
  ∧ xb_time_control_sent self' = xb_time_control_sent self
  ∧ xb_engine self' = xb_engine self.
Proof. done. Qed.

(** Without [set_time_control], [send_time] raises before it sends. *)
Lemma XBoardEngine_send_time_unset (self : XBoardEngine) :
  xb_minutes self = None →
  XBoardEngine_send_time self = (Raise (AttributeError "minutes"), self).
Proof.
  intros Hm. unfold XBoardEngine_send_time, mbind, M_bind, bind, attr.
  by rewrite Hm.
Qed.

(** *** Tablebase paths at XBoard construction *)

Lemma dict_get_set_eq (k : string) (v : PyVal) (d : Dict) :
  dict.get k (dict.set k v d) = Some v.
Proof.
  induction d as [|[k' v'] d IH]; simpl.
  - by rewrite String.eqb_refl.
  - destruct (String.eqb_spec k k') as [->|Hne]; simpl.
    + by rewrite String.eqb_refl.
    + by destruct (String.eqb_spec k k').
Qed.

Lemma dict_get_set_ne (k k' : string) (v : PyVal) (d : Dict) :
  k ≠ k' → dict.get k' (dict.set k v d) = dict.get k' d.
Proof.
  intros Hne. induction d as [|[k0 v0] d IH]; simpl.
  - by destruct (String.eqb_spec k' k) as [->|].
  - destruct (String.eqb_spec k k0) as [->|Hne0]; simpl.
    + by destruct (String.eqb_spec k' k0) as [->|].
    + by rewrite IH.
Qed.

Lemma dict_get_remove (k k' : string) (d : Dict) :
  dict.get k' (dict.remove k d) = if String.eqb k' k then None else dict.get k' d.
Proof.
  induction d as [|[k0 v0] d IH]; simpl.
  - by destruct (String.eqb k' k).
  - destruct (String.eqb_spec k k0) as [->|Hne]; simpl.
    + rewrite IH. by destruct (String.eqb k' k0).
    + rewrite IH. destruct (String.eqb_spec k' k0) as [->|]; [|done].
      by destruct (String.eqb_spec k0 k) as [->|].
Qed.

(** The loop stops at the first advertised type the [egtpath] block lacks. *)
Lemma add_egt_paths_missing
    (paths : Dict) (egt_types : list string) (options : Dict) (egt_type : string) :
  egt_type ∈ egt_types →
  dict.get egt_type paths = None →
  ∃ missing, missing ∈ egt_types
             ∧ dict.get missing paths = None
             ∧ add_egt_paths (PyDict paths) egt_types options = Raise (KeyError missing).
Proof.
  revert options. induction egt_types as [|t egt_types IH]; intros options Hin Hget.
  - by apply elem_of_nil in Hin.
  - simpl. unfold mbind, Res_bind.
    destruct (dict.get t paths) as [path|] eqn:Ht.
    + apply elem_of_cons in Hin as [->|Hin]; [congruence|].
      destruct (IH (dict.set ("egtpath " +:+ t) path options) Hin Hget)
        as (missing & Hm & Hnone & ->).
      exists missing. split; [by apply list_elem_of_further|done].
    + exists t. split; [apply list_elem_of_here|done].
Qed.

(** When the block has a path for every advertised type, exactly those types
    get an entry, each with the caller's path; every other option is kept. *)
Lemma add_egt_paths_entries (paths : Dict) (egt_types : list string) (options : Dict) :
  Forall (fun t => dict.get t paths ≠ None) egt_types →
  ∃ options',
    add_egt_paths (PyDict paths) egt_types options = Ok options'
    ∧ (∀ t, t ∈ egt_types →
            dict.get ("egtpath " +:+ t) options' = dict.get t paths)
    ∧ (∀ k, (∀ t, t ∈ egt_types → k ≠ "egtpath " +:+ t) →
            dict.get k options' = dict.get k options).
Proof.
  revert options. induction egt_types as [|t egt_types IH]; intros options Hall.
  - exists options. split; [done|]. split; [|done].
    intros t Hin. by apply elem_of_nil in Hin.
  - apply Forall_cons_1 in Hall as [Ht Hall]. simpl. unfold mbind, Res_bind.
    destruct (dict.get t paths) as [path|] eqn:Hpath; [|done].
    destruct (IH (dict.set ("egtpath " +:+ t) path options) Hall)
      as (options' & -> & Hin' & Hout').
    exists options'. split; [done|]. split.
    + intros t' Hin. destruct (decide (t' ∈ egt_types)) as [Hlater|Hlater].
      * by apply Hin'.
      * apply elem_of_cons in Hin as [->|Hin]; [|done].
        rewrite Hout', dict_get_set_eq; [done|].
        intros t0 Hin0 Heq. simpl in Heq. by simplify_eq.
    + intros k Hk. rewrite Hout'.
      * apply dict_get_set_ne. intros Heq.
        by apply (Hk t (list_elem_of_here _ _)).
      * intros t0 Hin0. by apply Hk, list_elem_of_further.
Qed.

(** C7, where the code departs from it: as soon as the engine advertises one
    tablebase type for which the caller's [egtpath] block has no path, the
    construction raises [KeyError] and no option at all reaches the engine,
    not even the entries of the types that are both advertised and
    configured. *)
Theorem XBoardEngine_init_unconfigured_egt_type
    (commands : list string) (options : Dict) (silence_stderr : bool)
    (engine : Engine) (advertised : string) (paths : Dict) (egt_type : string) :
  popen_xboard commands silence_stderr = Ok engine →
  features engine !! "egt" = Some (FStr advertised) →
  get_or_empty "egtpath" options = PyDict paths →
  egt_type ∈ split_on "," advertised →
  dict.get egt_type paths = None →
  ∃ missing, XBoardEngine_init commands options silence_stderr
             = Raise (KeyError missing).
Proof.
  intros Hpopen Hegt Hpaths Hin Hnone.
  unfold XBoardEngine_init, mbind at 1, Res_bind at 1. rewrite Hpopen.
  unfold egt_types_from_engine. rewrite Hegt, Hpaths. simpl.
  destruct (add_egt_paths_missing paths (split_on "," advertised)
              (dict.remove "egtpath" options) egt_type Hin Hnone)
    as (missing & _ & _ & Hraise).
  exists missing. unfold mbind, Res_bind. by rewrite Hraise.
Qed.

(** An engine without the [egt] feature gets the options as they are, the
    [egtpath] block aside, and the adapter is built when it accepts them. *)
Lemma XBoardEngine_init_no_egt
    (commands : list string) (options : Dict) (silence_stderr : bool)
    (engine : Engine) :
  popen_xboard commands silence_stderr = Ok engine →
  features engine !! "egt" = None →
  engine_configure engine (dict.remove "egtpath" options) = Ok tt →
  ∃ self, XBoardEngine_init commands options silence_stderr = Ok self
          ∧ trace (xb_engine self)
            = (trace engine ++ [Configure (dict.remove "egtpath" options)])%list.
Proof.
  intros Hpopen Hegt Hconfigure.
  unfold XBoardEngine_init, mbind at 1, Res_bind at 1. rewrite Hpopen.
  unfold egt_types_from_engine. rewrite Hegt. simpl.
  unfold mbind, Res_bind. rewrite Hconfigure. by eexists.
Qed.

(** Called without [options], the constructor starts the engine and raises:
    no adapter is built with the default. *)
Lemma XBoardEngine_new_default (commands : list string) (silence_stderr : bool) :
  (∀ engine, popen_xboard commands silence_stderr = Ok engine →
             XBoardEngine_new commands None silence_stderr
             = Raise (AttributeError "pop"))
  ∧ ∃ e, XBoardEngine_new commands None silence_stderr = Raise e.
Proof.
  unfold XBoardEngine_new, mbind, Res_bind.
  destruct (popen_xboard commands silence_stderr); split; try done; by eexists.
Qed.

(** *** [create_engine] *)

(** C8, where the code departs from it: without [engine.protocol] the lookup
    key [engine_type + "_options"] cannot be built, so [create_engine] raises
    and constructs no adapter; with well-formed [dir], [name] and launch
    options the exception is the [TypeError] of [None + "_options"]. *)
Theorem create_engine_protocol_absent (config cfg : Dict) :
  dict.get "engine" config = Some (PyDict cfg) →
  dict.get "protocol" cfg = None →
  (∃ e, create_engine config = Raise e)
  ∧ (∀ dir name flags,
        dict.get "dir" cfg = Some (PyStr dir) →
        dict.get "name" cfg = Some (PyStr name) →
        launch_flags (default PyNone (dict.get "engine_options" cfg)) = Ok flags →
        create_engine config = Raise (TypeError "unsupported operand type(s) for +")).
Proof.
  intros Hcfg Hproto. unfold create_engine. simpl. rewrite Hcfg.
  unfold mbind at 1, Res_bind at 1. split.
  - unfold mbind, Res_bind, getitem.
    destruct (dict.get "dir" cfg); [|by eexists].
    destruct (dict.get "name" cfg); [|by eexists].
    destruct (os_path_join _ _); [|by eexists]. simpl.
    destruct (launch_flags _); [|by eexists].
    rewrite Hproto. simpl. by eexists.
  - intros dir name flags Hdir Hname Hflags.
    unfold mbind, Res_bind, getitem. rewrite Hdir, Hname. simpl.
    rewrite Hflags, Hproto. done.
Qed.

(** With a [str] protocol the adapter is chosen by comparing with ["xboard"],
    and is built from the command vector and the filtered options block. *)
Lemma create_engine_protocol_str
    (config cfg : Dict) (dir name protocol : string) (flags : list string)
    (block : Dict) :
  dict.get "engine" config = Some (PyDict cfg) →
  dict.get "dir" cfg = Some (PyStr dir) →
  dict.get "name" cfg = Some (PyStr name) →
  dict.get "protocol" cfg = Some (PyStr protocol) →
  launch_flags (default PyNone (dict.get "engine_options" cfg)) = Ok flags →
  get_or_empty (protocol +:+ "_options") cfg = PyDict block →
  let commands := path_join dir name :: flags in
  let options := remove_managed_options block in
  let silence_stderr :=
    truthy (default (PyBool false) (dict.get "silence_stderr" cfg)) in
  create_engine config
  = if String.eqb protocol "xboard"
    then XBoard <$> XBoardEngine_init commands options silence_stderr
    else UCI <$> UCIEngine_init commands options silence_stderr.
Proof.
  intros Hcfg Hdir Hname Hproto Hflags Hblock. unfold create_engine. simpl.
  rewrite Hcfg. unfold mbind, Res_bind, getitem. rewrite Hdir, Hname. simpl.
  rewrite Hflags, Hproto. simpl. rewrite Hblock. simpl.
  by destruct (String.eqb protocol "xboard").
Qed.

(** *** Further properties: the XBoard clock *)

(** X1: [set_time_control] followed by [send_time] never raises and sends
    one level command [level 0 M:S I] whose minutes and seconds are the whole
    seconds of the initial clock ([60 M + S = clock_initial // 1000] with
    [0 <= S < 60], the milliseconds beyond are dropped) and whose increment
    is [clock_increment // 1000]; the flag is set afterwards. *)
Theorem XBoardEngine_time_control_level (game : Game) (self : XBoardEngine) :
  let run := (XBoardEngine_set_time_control game;; XBoardEngine_send_time) self in
  ∃ minutes seconds inc : Z,
    result run = Ok tt
    ∧ trace (xb_engine (state run))
      = (trace (xb_engine self) ++ [SendLine (level_command minutes seconds inc)])%list
    ∧ xb_time_control_sent (state run) = true
    ∧ 60 * minutes + seconds = clock_initial game `div` 1000
    ∧ 0 ≤ seconds < 60
    ∧ 1000 * (60 * minutes + seconds) ≤ clock_initial game
      < 1000 * (60 * minutes + seconds) + 1000
    ∧ inc = clock_increment game `div` 1000.
Proof.
  simpl.
  exists ((clock_initial game `div` 1000) `div` 60),
         ((clock_initial game `div` 1000) `mod` 60),
         (clock_increment game `div` 1000).
  pose proof (Z.div_mod (clock_initial game `div` 1000) 60 ltac:(done)) as Hmin.
  pose proof (Z.mod_pos_bound (clock_initial game `div` 1000) 60 ltac:(done)) as Hsec.
  pose proof (Z.div_mod (clock_initial game) 1000 ltac:(done)) as Hms.
  pose proof (Z.mod_pos_bound (clock_initial game) 1000 ltac:(done)) as Hrem.
  repeat split; try done; try lia.
Qed.


(** *** Further properties: statistics *)


Lemma print_handler_stats_run
    (info : gmap string InfoVal) (stats stdout : list string) :
  print_handler_stats info stats stdout
  = (Ok tt,
     (stdout ++ map (String.append "    ") (get_handler_stats info stats))%list).
Proof.
  rewrite get_handler_stats_omap. unfold print_handler_stats.
  revert stdout. induction stats as [|stat stats IH]; intros stdout; simpl.
  - by rewrite app_nil_r.
  - unfold mbind, M_bind, bind.
    destruct (info !! stat) as [v|]; simpl.
    + rewrite IH. by rewrite <- app_assoc.
    + apply IH.
Qed.

(** X4: [print_stats] prints what [get_stats] returns, one entry per line
    behind four spaces, after whatever was printed before; the UCI adapter
    prints the engine's [string] info first when there is one, which
    [get_stats] never reports. *)
Theorem print_stats_shows_get_stats :
  (∀ (self : XBoardEngine) stdout,
      XBoardEngine_print_stats self stdout
      = (Ok tt,
         (stdout ++ map (String.append "    ") (XBoardEngine_get_stats self))%list))
  ∧ (∀ (self : UCIEngine) stdout,
        UCIEngine_print_stats self stdout
        = (Ok tt,
           (stdout
            ++ match uci_last_move_info self !! "string" with
               | Some v => ["    string: " +:+ info_str v]
               | None => []
               end
            ++ map (String.append "    ") (UCIEngine_get_stats self))%list)).
Proof.
  split.
  - intros self stdout. apply print_handler_stats_run.
  - intros self stdout. unfold UCIEngine_print_stats, UCIEngine_get_stats.
    rewrite print_handler_stats_run, !get_handler_stats_omap. simpl.
    by destruct (uci_last_move_info self !! "string").
Qed.

(** X5: [get_handler_stats] looks at the queried names only: a key that is
    not queried can be added to the info, changed or removed without any
    effect on the result. The result has one entry for each queried name
    the info has, so never more entries than names queried. *)
Theorem get_handler_stats_queried_only
    (info : gmap string InfoVal) (stats : list string) (key : string) (v : InfoVal) :
  key ∉ stats →
  get_handler_stats (<[key := v]> info) stats = get_handler_stats info stats
  ∧ get_handler_stats (delete key info) stats = get_handler_stats info stats
  ∧ length (get_handler_stats info stats)
    = length (filter (fun stat => is_Some (info !! stat)) stats)
  ∧ (length (get_handler_stats info stats) ≤ length stats)%nat.
Proof.
  intros Hkey. rewrite !get_handler_stats_omap.
  induction stats as [|stat stats IH]; [done|].
  apply not_elem_of_cons in Hkey as [Hne Hkey].
  destruct (IH Hkey) as (IH1 & IH2 & IH3 & IH4).
  simpl. rewrite filter_cons.
  rewrite lookup_insert_ne, lookup_delete_ne by done.
  destruct (info !! stat) as [x|] eqn:E; simpl.
  - split; [by f_equal|]. split; [by f_equal|]. split; [by f_equal|].
    by apply le_n_S.
  - split; [done|]. split; [done|]. split; [done|]. by apply le_S.
Qed.

(** *** Further properties: the level command among other calls *)

Lemma level_lines_app (events events' : list Event) :
  level_lines (events ++ events') = (level_lines events ++ level_lines events')%list.
Proof. apply omap_app. Qed.

(** One call of any kind on an adapter whose clock is recorded. *)
Lemma xboard_call_step
    (self : XBoardEngine) (minutes seconds inc : Z) (c : XBoardCall) :
  xb_minutes self = Some minutes →
  xb_seconds self = Some seconds →
  xb_inc self = Some inc →
  let self' := xboard_call c self in
  xb_minutes self' = Some minutes
  ∧ xb_seconds self' = Some seconds
  ∧ xb_inc self' = Some inc
  ∧ xb_time_control_sent self'
    = xb_time_control_sent self || is_search_with_ponder c
  ∧ ∃ events,
      trace (xb_engine self') = (trace (xb_engine self) ++ events)%list
      ∧ level_lines events
        = if is_search_with_ponder c && negb (xb_time_control_sent self)
          then [level_command minutes seconds inc]
          else [].
Proof.
  intros Hm Hs Hi. destruct c as [board movetime|c| |game]; simpl.
  - unfold XBoardEngine_first_search, xb_play, state, mbind, M_bind, bind.
    destruct (engine_play _ _ _ _); simpl; rewrite orb_false_r;
      (repeat (split; [done|])); by eexists.
  - destruct (search_with_ponder_call_step self minutes seconds inc c Hm Hs Hi)
      as (Hm' & Hs' & Hi' & Hsent' & Htrace).
    rewrite orb_true_r. repeat (split; [done|]).
    eexists. split; [exact Htrace|].
    by destruct (xb_time_control_sent self).
  - rewrite orb_false_r. repeat (split; [done|]). by eexists.
  - rewrite XBoardEngine_get_opponent_info_run. unfold state. simpl.
    rewrite orb_false_r. repeat (split; [done|]).
    eexists. split; [reflexivity|].
    by destruct (truthy_str _ && _), (bool_decide _ && bool_decide _),
      (bool_decide (title _ = _)).
Qed.

Lemma xboard_calls_level_lines
    (calls : list XBoardCall) (self : XBoardEngine) (minutes seconds inc : Z) :
  xb_minutes self = Some minutes →
  xb_seconds self = Some seconds →
  xb_inc self = Some inc →
  xb_time_control_sent (xboard_calls calls self)
  = xb_time_control_sent self || existsb is_search_with_ponder calls
  ∧ ∃ events,
      trace (xb_engine (xboard_calls calls self))
      = (trace (xb_engine self) ++ events)%list
      ∧ level_lines events
        = if existsb is_search_with_ponder calls && negb (xb_time_control_sent self)
          then [level_command minutes seconds inc]
          else [].
Proof.
  revert self. induction calls as [|c calls IH]; intros self Hm Hs Hi; simpl.
  - rewrite orb_false_r. split; [done|]. exists []. by rewrite app_nil_r.
  - destruct (xboard_call_step self minutes seconds inc c Hm Hs Hi)
      as (Hm' & Hs' & Hi' & Hsent' & events & Htrace & Hlevel).
    destruct (IH _ Hm' Hs' Hi') as (Hsent'' & events' & Htrace' & Hlevel').
    rewrite Hsent'', Hsent', Htrace', Htrace. split; [by rewrite orb_assoc|].
    exists (events ++ events')%list. split; [by rewrite app_assoc|].
    rewrite level_lines_app, Hlevel, Hlevel', Hsent'.
    by destruct (is_search_with_ponder c), (xb_time_control_sent self),
      (existsb is_search_with_ponder calls).
Qed.

(** X6: on an adapter whose clock is recorded and whose flag is not set,
    any sequence of [first_search], [search_with_ponder], [stop] and
    [get_opponent_info] calls, in any order and whatever the engine answers,
    transmits the level command exactly once if the sequence has a
    [search_with_ponder] and never otherwise; the flag is set afterwards
    exactly when the sequence has one. *)
Theorem xboard_calls_level_once
    (calls : list XBoardCall) (self : XBoardEngine) (minutes seconds inc : Z) :
  xb_minutes self = Some minutes →
  xb_seconds self = Some seconds →
  xb_inc self = Some inc →
  xb_time_control_sent self = false →
  xb_time_control_sent (xboard_calls calls self)
  = existsb is_search_with_ponder calls
  ∧ level_lines (drop (length (trace (xb_engine self)))
                      (trace (xb_engine (xboard_calls calls self))))
    = if existsb is_search_with_ponder calls
      then [level_command minutes seconds inc]
      else [].
Proof.
  intros Hm Hs Hi Hsent.
  destruct (xboard_calls_level_lines calls self minutes seconds inc Hm Hs Hi)
    as (Hsent' & events & Htrace & Hlevel).
  rewrite Hsent', Htrace, drop_app_length, Hlevel, Hsent. simpl.
  by rewrite andb_true_r.
Qed.

(** *** Further properties: construction *)

Lemma dict_remove_sublist (k : string) (d : Dict) : dict.remove k d `sublist_of` d.
Proof.
  induction d as [|[k' v] d IH]; simpl; [done|].
  destruct (String.eqb k k'); by constructor.
Qed.

Lemma dict_remove_Forall (P : string * PyVal -> Prop) (k : string) (d : Dict) :
  Forall P d → Forall (fun item => P item ∧ item.1 ≠ k) (dict.remove k d).
Proof.
  induction 1 as [|[k' v] d HP Hd IH]; simpl; [done|].
  destruct (String.eqb_spec k k') as [->|Hne]; [done|].
  constructor; [|done]. split; [done|]. simpl. congruence.
Qed.

Lemma dict_set_Forall (P : string * PyVal -> Prop) (k : string) (v : PyVal) (d : Dict) :
  P (k, v) → Forall P d → Forall P (dict.set k v d).
Proof.
  intros Hkv. induction 1 as [|[k' v'] d HP Hd IH]; simpl.
  - by constructor.
  - destruct (String.eqb k k'); by constructor.
Qed.

(** X7: [UCIEngine.__init__] takes [go_commands] out of the options before
    the engine sees them: the options it hands to [configure] have no
    [go_commands] entry and are otherwise the caller's, values and order
    unchanged. When the engine starts and accepts them, that is the one
    configuration call made, the adapter keeps the [go_commands] block, or
    an empty one when the block is absent or falsy, and has no statistics
    yet. When the engine does not start, or rejects the options, the
    exception propagates and there is no adapter. *)
Theorem UCIEngine_init_go_commands
    (commands : list string) (options : Dict) (silence_stderr : bool) :
  ∃ forwarded,
    dict.get "go_commands" forwarded = None
    ∧ (∀ k, k ≠ "go_commands" → dict.get k forwarded = dict.get k options)
    ∧ forwarded `sublist_of` options
    ∧ match popen_uci commands silence_stderr with
      | Ok engine =>
          match engine_configure engine forwarded with
          | Ok _ =>
              ∃ self,
                UCIEngine_init commands options silence_stderr = Ok self
                ∧ trace (uci_engine self)
                  = (trace engine ++ [Configure forwarded])%list
                ∧ (∀ block, dict.get "go_commands" options = Some block →
                            truthy block = true → uci_go_commands self = block)
                ∧ (dict.get "go_commands" options = None →
                   uci_go_commands self = PyDict [])
                ∧ (∀ block, dict.get "go_commands" options = Some block →
                            truthy block = false →
                            uci_go_commands self = PyDict [])
                ∧ UCIEngine_get_stats self = []
          | Raise e => UCIEngine_init commands options silence_stderr = Raise e
          end
      | Raise e => UCIEngine_init commands options silence_stderr = Raise e
      end.
Proof.
  exists (dict.remove "go_commands" options).
  split; [by rewrite dict_get_remove|]. split.
  { intros k Hk. rewrite dict_get_remove.
    by destruct (String.eqb_spec k "go_commands"). }
  split; [apply dict_remove_sublist|].
  unfold UCIEngine_init, mbind, Res_bind.
  destruct (popen_uci commands silence_stderr) as [engine|e]; [|done].
  destruct (engine_configure engine _) as [[]|e]; [|done].
  eexists. split; [reflexivity|]. simpl. split; [done|].
  unfold get_or_empty.
  split; [by intros block -> ->|]. split; [by intros ->|].
  split; [by intros block -> ->|].
  apply get_handler_stats_empty.
Qed.

Lemma split_on_nonempty (sep : Ascii.ascii) (s : string) : split_on sep s ≠ [].
Proof.
  destruct s as [|c s]; simpl; [done|].
  destruct (Ascii.eqb c sep); [done|]. by destruct (split_on sep s).
Qed.

Lemma add_egt_paths_Ok_inv
    (egt_paths : PyVal) (egt_types : list string) (options options' : Dict) :
  add_egt_paths egt_paths egt_types options = Ok options' →
  egt_types ≠ [] →
  ∃ paths, egt_paths = PyDict paths
           ∧ Forall (fun t => dict.get t paths ≠ None) egt_types.
Proof.
  revert options. induction egt_types as [|t egt_types IH]; intros options Hok Hne.
  - done.
  - simpl in Hok. unfold mbind, Res_bind in Hok.
    destruct egt_paths as [| | | |paths]; simpl in Hok; try done.
    destruct (dict.get t paths) as [path|] eqn:Ht; [|done].
    exists paths. split; [done|]. constructor; [by rewrite Ht|].
    destruct egt_types as [|t' egt_types]; [done|].
    destruct (IH _ Hok) as (paths' & [= <-] & Hall); done.
Qed.

(** X8: [XBoardEngine.__init__] returns an adapter exactly when the engine
    starts, it either has no [egt] feature, or has a [str] one and the
    caller's [egtpath] block is a mapping with a path for every type between
    the commas of that feature (for an empty feature that is the one type
    [""]), and the engine accepts the options then handed to [configure]. In
    every other case it raises. *)
Theorem XBoardEngine_init_succeeds_iff
    (commands : list string) (options : Dict) (silence_stderr : bool) :
  (∃ self, XBoardEngine_init commands options silence_stderr = Ok self)
  ↔ ∃ engine,
      popen_xboard commands silence_stderr = Ok engine
      ∧ match features engine !! "egt" with
        | None => True
        | Some (FInt _) => False
        | Some (FStr advertised) =>
            ∃ paths,
              get_or_empty "egtpath" options = PyDict paths
              ∧ Forall (fun t => dict.get t paths ≠ None)
                       (split_on "," advertised)
        end
      ∧ (∀ egt_types forwarded,
            egt_types_from_engine (features engine) = Ok egt_types →
            add_egt_paths (get_or_empty "egtpath" options) egt_types
              (dict.remove "egtpath" options) = Ok forwarded →
            engine_configure engine forwarded = Ok tt).
Proof.
  unfold XBoardEngine_init, mbind at 1, Res_bind at 1.
  destruct (popen_xboard commands silence_stderr) as [engine|e].
  2: { split; [by intros [? ?]|by intros (? & ? & ?)]. }
  unfold egt_types_from_engine.
  destruct (features engine !! "egt") as [[z|advertised]|] eqn:Hegt; simpl.
  - split; [by intros [? ?]|]. intros (engine' & [= <-] & Hfalse & _).
    by rewrite Hegt in Hfalse.
  - unfold mbind, Res_bind. split.
    + intros [self Hinit]. exists engine. split; [done|]. rewrite Hegt.
      destruct (add_egt_paths _ _ _) as [options'|] eqn:Hadd; [|done].
      split.
      * apply add_egt_paths_Ok_inv in Hadd; [done|apply split_on_nonempty].
      * intros egt_types forwarded [= <-] Hadd'.
        rewrite Hadd in Hadd'. injection Hadd' as <-.
        by destruct (engine_configure engine options') as [[]|].
    + intros (engine' & [= <-] & Hpaths & Hconfigure).
      rewrite Hegt in Hpaths, Hconfigure.
      destruct Hpaths as (paths & Hblock & Hall).
      rewrite Hblock in *.
      destruct (add_egt_paths_entries paths (split_on "," advertised)
                  (dict.remove "egtpath" options) Hall) as (options' & Hadd & _).
      rewrite Hadd, (Hconfigure _ options' eq_refl Hadd). by eexists.
  - unfold mbind, Res_bind. split.
    + intros [self Hinit]. exists engine. rewrite Hegt. split; [done|].
      split; [done|]. intros egt_types forwarded [= <-] [= <-].
      by destruct (engine_configure engine _) as [[]|].
    + intros (engine' & [= <-] & _ & Hconfigure). rewrite Hegt in Hconfigure.
      rewrite (Hconfigure [] _ eq_refl eq_refl). by eexists.
Qed.

(** X9: when [XBoardEngine.__init__] returns an adapter, the adapter is
    fresh (flag unset, no statistics, clock not recorded) and the engine
    has accepted one configuration call, which never carries the [egtpath]
    block itself: without an [egt] feature it carries the caller's other
    options unchanged; with one it carries, for each advertised type, the
    entry ["egtpath <type>"] with the caller's path for that type, and every
    other option of the caller unchanged. *)
Theorem XBoardEngine_init_forwards
    (commands : list string) (options : Dict) (silence_stderr : bool)
    (self : XBoardEngine) :
  XBoardEngine_init commands options silence_stderr = Ok self →
  ∃ engine forwarded,
    popen_xboard commands silence_stderr = Ok engine
    ∧ engine_configure engine forwarded = Ok tt
    ∧ trace (xb_engine self) = (trace engine ++ [Configure forwarded])%list
    ∧ xb_time_control_sent self = false
    ∧ XBoardEngine_get_stats self = []
    ∧ xb_minutes self = None
    ∧ dict.get "egtpath" forwarded = None
    ∧ match features engine !! "egt" with
      | None =>
          ∀ k, k ≠ "egtpath" → dict.get k forwarded = dict.get k options
      | Some (FInt _) => False
      | Some (FStr advertised) =>
          ∃ paths,
            get_or_empty "egtpath" options = PyDict paths
            ∧ (∀ t, t ∈ split_on "," advertised →
                    dict.get t paths ≠ None
                    ∧ dict.get ("egtpath " +:+ t) forwarded = dict.get t paths)
            ∧ (∀ k, (∀ t, t ∈ split_on "," advertised → k ≠ "egtpath " +:+ t) →
                    k ≠ "egtpath" →
                    dict.get k forwarded = dict.get k options)
      end.
Proof.
  intros Hinit.
  unfold XBoardEngine_init, mbind, Res_bind, mret, Res_ret in Hinit.
  destruct (popen_xboard commands silence_stderr) as [engine|] eqn:Hpopen; [|done].
  destruct (egt_types_from_engine (features engine)) as [egt_types|] eqn:Htypes;
    [|done].
  destruct (add_egt_paths _ _ _) as [forwarded|] eqn:Hadd; [|done].
  destruct (engine_configure engine forwarded) as [[]|] eqn:Hconfigure; [|done].
  injection Hinit as <-. simpl.
  exists engine, forwarded.
  split; [done|]. split; [done|]. split; [done|]. split; [done|].
  split; [apply get_handler_stats_empty|]. split; [done|].
  unfold egt_types_from_engine in Htypes.
  destruct (features engine !! "egt") as [[z|advertised]|]; [done| |].
  - injection Htypes as <-.
    destruct (add_egt_paths_Ok_inv _ _ _ _ Hadd (split_on_nonempty _ _))
      as (paths & Hblock & Hall).
    rewrite Hblock in Hadd.
    destruct (add_egt_paths_entries paths (split_on "," advertised)
                (dict.remove "egtpath" options) Hall)
      as (forwarded' & Hadd' & Hin & Hout).
    rewrite Hadd in Hadd'. injection Hadd' as <-.
    split.
    { rewrite Hout, dict_get_remove; [done|]. intros t _. simpl. discriminate. }
    exists paths. split; [done|]. split.
    + intros t Ht. split; [|by apply Hin].
      by apply (proj1 (Forall_forall _ _) Hall).
    + intros k Hk Hne. rewrite (Hout k Hk), dict_get_remove.
      by destruct (String.eqb_spec k "egtpath").
  - injection Htypes as <-. simpl in Hadd. injection Hadd as <-.
    split; [by rewrite dict_get_remove|].
    intros k Hne. rewrite dict_get_remove.
    by destruct (String.eqb_spec k "egtpath").
Qed.

(** *** Further properties: [create_engine] *)

Lemma remove_managed_options_Forall (config : Dict) :
  Forall (fun item => is_managed item.1 = false) (remove_managed_options config).
Proof.
  apply Forall_forall. intros [k v] Hin.
  apply list_elem_of_filter in Hin as [Hk _]. simpl in *.
  by destruct (is_managed k).
Qed.

Lemma add_egt_paths_Forall
    (Q : string * PyVal -> Prop) (egt_paths : PyVal) (egt_types : list string)
    (options options' : Dict) :
  (∀ t v, Q ("egtpath " +:+ t, v)) →
  Forall Q options →
  add_egt_paths egt_paths egt_types options = Ok options' →
  Forall Q options'.
Proof.
  intros Hegt. revert options.
  induction egt_types as [|t egt_types IH]; intros options Hall Hadd; simpl in Hadd.
  - by simplify_eq.
  - unfold mbind, Res_bind in Hadd.
    destruct (getitem egt_paths t) as [path|]; [|done].
    eapply IH; [|exact Hadd]. by apply dict_set_Forall.
Qed.

(** Steps through one statement of a computation known to return. *)
Local Ltac res_step H :=
  match type of H with
  | match ?x with Ok _ => _ | Raise _ => Raise _ end = Ok _ =>
      let E := fresh "E" in destruct x eqn:E; [|discriminate H]
  end.

(** X10: whatever adapter [create_engine] returns, the one configuration
    call made on its engine carries no managed option: for a UCI adapter
    every option sent is an unmanaged name other than [go_commands]; for an
    XBoard adapter every option sent is an unmanaged name other than
    [egtpath], or one of the ["egtpath <type>"] entries the constructor
    adds. *)
Theorem create_engine_forwards_no_managed_option
    (config : Dict) (adapter : EngineWrapper) :
  create_engine config = Ok adapter →
  match adapter with
  | UCI self =>
      ∃ commands silence_stderr engine options,
        popen_uci commands silence_stderr = Ok engine
        ∧ trace (uci_engine self) = (trace engine ++ [Configure options])%list
        ∧ Forall (fun item => is_managed item.1 = false ∧ item.1 ≠ "go_commands")
                 options
  | XBoard self =>
      ∃ commands silence_stderr engine options,
        popen_xboard commands silence_stderr = Ok engine
        ∧ trace (xb_engine self) = (trace engine ++ [Configure options])%list
        ∧ Forall (fun item => is_managed item.1 = false ∧ item.1 ≠ "egtpath"
                              ∨ ∃ t, item.1 = "egtpath " +:+ t)
                 options
  end.
Proof.
  intros H. unfold create_engine, mbind, Res_bind, fmap, Res_fmap in H.
  repeat res_step H.
  match goal with
  | E : match items_of _ with Ok _ => _ | Raise _ => _ end = Ok _ |- _ =>
      res_step E; injection E as <-
  end.
  destruct (eq_str _ _).
  - res_step H. injection H as <-.
    match goal with E : XBoardEngine_init _ _ _ = Ok _ |- _ => rename E into Hinit end.
    unfold XBoardEngine_init, mbind, Res_bind, mret, Res_ret in Hinit.
    repeat res_step Hinit. injection Hinit as <-. simpl.
    eexists _, _, _, _. split; [eassumption|]. split; [done|].
    eapply add_egt_paths_Forall; [| |eassumption].
    + intros t v. right. by exists t.
    + eapply Forall_impl.
      * apply dict_remove_Forall, remove_managed_options_Forall.
      * intros item Hitem. by left.
  - res_step H. injection H as <-.
    match goal with E : UCIEngine_init _ _ _ = Ok _ |- _ => rename E into Hinit end.
    unfold UCIEngine_init, mbind, Res_bind, mret, Res_ret in Hinit.
    repeat res_step Hinit. injection Hinit as <-. simpl.
    eexists _, _, _, _. split; [eassumption|]. split; [done|].
    apply dict_remove_Forall, remove_managed_options_Forall.
Qed.




End Wrapper.

(** * Concrete runs

    The statements above, at explicit games and engines. Positions, moves and
    info values play no part and are [unit]. *)



(** Likewise at [1000 * (2 ^ 53 + 1)], a multiple of 1000: the quotient
    [2 ^ 53 + 1] is no float and rounds to [2 ^ 53], so the limits differ. *)
Lemma first_search_limits_differ_on_multiple :
  let movetime := (1000 * (2 ^ 53 + 1))%Z in
  ∃ seconds,
    (movetime `mod` 1000 = 0)%Z
    ∧ float_div movetime 1000 = Ok (NFloat seconds)
    ∧ num_eq (NFloat seconds) (NInt (2 ^ 53)) = true
    ∧ num_eq (NFloat seconds) (NInt (movetime `div` 1000)) = false.
Proof.
  eexists. split; [vm_compute; reflexivity|].
  split; [vm_compute; reflexivity|].
  split; vm_compute; reflexivity.
Qed.

(** Most quotients are no float: a millisecond is handed over as the nearest
    one. *)
Lemma float_div_inexact :
  ∃ seconds,
    float_div 1 1000 = Ok (NFloat seconds) ∧ seconds ≠ Q2Qc (1 # 1000).
Proof.
  eexists. split; [vm_compute; reflexivity|].
  intros Heq. apply (f_equal this) in Heq. vm_compute in Heq. discriminate.
Qed.

(** Past the range of a float the division raises, and the engine is not
    asked to play. *)
Lemma UCIEngine_first_search_overflow :
  let self := uci_on unit unit (bare_engine unit) in
  UCIEngine_first_search unit unit unit (silent_play unit unit unit) tt
    (10 ^ 400) self
  = (Raise (OverflowError "integer division result too large for a float"), self).
Proof. vm_compute. reflexivity. Qed.



(** C9 at the nameless game, on an engine that declares [UCI_Opponent]. *)
Lemma UCIEngine_get_opponent_info_nameless_run :
  let self := uci_on unit unit (opponent_aware_engine unit) in
  UCIEngine_get_opponent_info unit unit anonymous_game self = (Ok tt, self).
Proof.
  apply (UCIEngine_get_opponent_info_nameless unit unit anonymous_game).
  left. reflexivity.
Defined.

(** C4 as first stated fails: the engine declares [UCI_Opponent], yet for a
    nameless opponent no configuration update is sent. *)
Lemma UCIEngine_get_opponent_info_needs_name :
  let self := uci_on unit unit (opponent_aware_engine unit) in
  let self' := state (UCIEngine_get_opponent_info unit unit anonymous_game self) in
  "UCI_Opponent" ∈ config unit (uci_engine unit unit self)
  ∧ trace unit (uci_engine unit unit self') = [].
Proof. split; [by apply elem_of_singleton|reflexivity]. Defined.

(** C4 amended, for Magnus. *)
Lemma UCIEngine_get_opponent_info_magnus :
  let self := uci_on unit unit (opponent_aware_engine unit) in
  trace unit
    (uci_engine unit unit
       (state (UCIEngine_get_opponent_info unit unit magnus_game self)))
  = [Configure unit [("UCI_Opponent", PyStr "BOT none computer Magnus")]].
Proof.
  simpl.
  destruct (UCIEngine_get_opponent_info_value unit unit magnus_game
              (uci_on unit unit (opponent_aware_engine unit)) "Magnus")
    as (title_text & rating_text & player_type & Hrun & _ & _ & _ & _ & _ & _ & Hvalue).
  - reflexivity.
  - discriminate.
  - by apply elem_of_singleton.
  - rewrite Hrun. unfold state. simpl. rewrite (Hvalue eq_refl). reflexivity.
Defined.

(** C5 as first stated fails: the feature table allows a name, yet for a
    nameless opponent no name line (and here no line at all) goes out. *)
Lemma XBoardEngine_get_opponent_info_needs_name :
  let self := xboard_on unit unit (opponent_aware_engine unit) in
  let nameless :=
    {| opponent := {| name := None; rating := None; title := None |};
       me := {| name := None; rating := None; title := None |};
       clock_initial := 0;
       clock_increment := 0 |} in
  features unit (xb_engine unit unit self) !! "name" = Some (FInt 1)
  ∧ XBoardEngine_get_opponent_info unit unit nameless self = (Ok tt, self).
Proof. split; reflexivity. Defined.

(** C10 for Magnus, on an engine whose feature table has no ["name"]. *)
Lemma XBoardEngine_name_line_fail_open_run :
  let self := xboard_on unit unit (bare_engine unit) in
  ∃ prefix,
    head (drop (length (trace unit (xb_engine unit unit self)))
               (trace unit
                  (xb_engine unit unit
                     (state (XBoardEngine_get_opponent_info unit unit
                               magnus_game self)))))
    = Some (SendLine unit ("name " +:+ prefix +:+ "Magnus")).
Proof.
  simpl.
  apply (XBoardEngine_name_line_fail_open unit unit magnus_game
           (xboard_on unit unit (bare_engine unit)) "Magnus").
  - reflexivity.
  - discriminate.
  - reflexivity.
Defined.



(** C7 at an engine that advertises gaviota and nalimov while the caller
    configured a gaviota path only. *)
Lemma XBoardEngine_init_unconfigured_egt_type_run :
  ∃ missing,
    XBoardEngine_init unit unit (fun _ _ => Ok (two_egt_engine unit)) (fun _ _ => Ok tt) ["engine"]
      [("egtpath", PyDict [("gaviota", PyStr "/tb/gaviota")])] false
    = Raise (KeyError missing).
Proof.
  apply (XBoardEngine_init_unconfigured_egt_type unit unit
           (fun _ _ => Ok (two_egt_engine unit)) (fun _ _ => Ok tt) ["engine"]
           [("egtpath", PyDict [("gaviota", PyStr "/tb/gaviota")])] false
           (two_egt_engine unit) "gaviota,nalimov"
           [("gaviota", PyStr "/tb/gaviota")] "nalimov").
  - reflexivity.
  - reflexivity.
  - reflexivity.
  - simpl. apply list_elem_of_further, list_elem_of_here.
  - reflexivity.
Defined.

(** The same construction, evaluated: the missing type is nalimov. *)
Lemma XBoardEngine_init_gaviota_only :
  XBoardEngine_init unit unit (fun _ _ => Ok (two_egt_engine unit)) (fun _ _ => Ok tt) ["engine"]
    [("egtpath", PyDict [("gaviota", PyStr "/tb/gaviota")])] false
  = Raise (KeyError "nalimov").
Proof. reflexivity. Qed.

(** Without any [egtpath] block the first advertised type is the one missed. *)
Lemma XBoardEngine_init_no_egtpath_block :
  XBoardEngine_init unit unit (fun _ _ => Ok (two_egt_engine unit)) (fun _ _ => Ok tt) ["engine"]
    [("cores", PyInt 4)] false
  = Raise (KeyError "gaviota").
Proof. reflexivity. Qed.

(** C8 at a configuration that gives [dir] and [name] only. *)
Lemma create_engine_protocol_absent_run :
  create_engine unit unit (fun _ => false) (fun _ => "{}")
    (fun dir name => dir +:+ "/" +:+ name)
    (fun _ _ => Ok (bare_engine unit)) (fun _ _ => Ok (bare_engine unit))
    (fun _ _ => Ok tt)
    [("engine", PyDict [("dir", PyStr "/engines"); ("name", PyStr "stockfish")])]
  = Raise (TypeError "unsupported operand type(s) for +").
Proof.
  apply (proj2 (create_engine_protocol_absent unit unit (fun _ => false)
                  (fun _ => "{}") (fun dir name => dir +:+ "/" +:+ name)
                  (fun _ _ => Ok (bare_engine unit))
                  (fun _ _ => Ok (bare_engine unit)) (fun _ _ => Ok tt)
                  [("engine",
                    PyDict [("dir", PyStr "/engines"); ("name", PyStr "stockfish")])]
                  [("dir", PyStr "/engines"); ("name", PyStr "stockfish")]
                  eq_refl eq_refl)
           "/engines" "stockfish" []);
    reflexivity.
Defined.


(** X5 for a principal variation added to an info that has a depth. *)
Lemma get_handler_stats_queried_only_run :
  get_handler_stats string (fun v => v) (<["pv" := "e2e4"]> {["depth" := "12"]})
    ["depth"; "nodes"; "score"]
  = get_handler_stats string (fun v => v) {["depth" := "12"]}
      ["depth"; "nodes"; "score"].
Proof.
  apply (get_handler_stats_queried_only string (fun v => v)
           {["depth" := "12"]} ["depth"; "nodes"; "score"] "pv" "e2e4").
  intros Hin. repeat (apply elem_of_cons in Hin as [Hin|Hin]; [discriminate|]).
  by apply elem_of_nil in Hin.
Defined.

(** X6 for a game that starts with the opponent's identity and a first
    search, and then interrupts one of two clocked searches. *)
Lemma xboard_calls_level_once_run :
  let call :=
    {| call_board := tt; call_wtime := 90000; call_btime := 90000;
       call_winc := 2000; call_binc := 2000; call_ponder := false |} in
  let timed :=
    state (XBoardEngine_set_time_control unit unit magnus_game
             (xboard_on unit unit (bare_engine unit))) in
  let calls :=
    [CallGetOpponentInfo unit magnus_game; CallFirstSearch unit tt 1000;
     CallSearchWithPonder unit call; CallStop unit; CallSearchWithPonder unit call] in
  level_lines unit
    (drop (length (trace unit (xb_engine unit unit timed)))
          (trace unit
             (xb_engine unit unit
                (xboard_calls unit unit unit (silent_play unit unit unit)
                   calls timed))))
  = ["level 0 1:30 2"].
Proof.
  exact (proj2 (xboard_calls_level_once unit unit unit (silent_play unit unit unit)
                  [CallGetOpponentInfo unit magnus_game; CallFirstSearch unit tt 1000;
                   CallSearchWithPonder unit
                     {| call_board := tt; call_wtime := 90000; call_btime := 90000;
                        call_winc := 2000; call_binc := 2000; call_ponder := false |};
                   CallStop unit;
                   CallSearchWithPonder unit
                     {| call_board := tt; call_wtime := 90000; call_btime := 90000;
                        call_winc := 2000; call_binc := 2000; call_ponder := false |}]
                  (state (XBoardEngine_set_time_control unit unit magnus_game
                            (xboard_on unit unit (bare_engine unit))))
                  1 30 2 eq_refl eq_refl eq_refl eq_refl)).
Defined.

(** X9 for an engine that advertises gaviota and nalimov and accepts every
    option, and a caller who configured both. *)
Lemma XBoardEngine_init_forwards_run :
  ∃ self forwarded,
    XBoardEngine_init unit unit (fun _ _ => Ok (two_egt_engine unit))
      (fun _ _ => Ok tt) ["engine"]
      [("cores", PyInt 4);
       ("egtpath",
        PyDict [("gaviota", PyStr "/tb/gaviota"); ("nalimov", PyStr "/tb/nalimov")])]
      false
    = Ok self
    ∧ trace unit (xb_engine unit unit self) = [Configure unit forwarded]
    ∧ dict.get "egtpath nalimov" forwarded = Some (PyStr "/tb/nalimov")
    ∧ dict.get "egtpath" forwarded = None.
Proof.
  eexists.
  destruct (XBoardEngine_init_forwards unit unit (fun _ : unit => "")
              (fun _ _ => Ok (two_egt_engine unit)) (fun _ _ => Ok tt) ["engine"]
              [("cores", PyInt 4);
               ("egtpath",
                PyDict [("gaviota", PyStr "/tb/gaviota");
                        ("nalimov", PyStr "/tb/nalimov")])]
              false _ eq_refl)
    as (engine & forwarded & Hpopen & _ & Htrace & _ & _ & _ & Hnone & Hegt).
  injection Hpopen as <-. simpl in Hegt.
  destruct Hegt as (paths & Hblock & Hin & _). injection Hblock as <-.
  exists forwarded. split; [reflexivity|]. split; [exact Htrace|].
  split; [|exact Hnone].
  destruct (Hin "nalimov") as [_ Hpath].
  - apply list_elem_of_further, list_elem_of_here.
  - exact Hpath.
Defined.

(** An engine that rejects its options leaves no adapter, whichever the
    protocol. *)
Lemma XBoardEngine_init_rejected :
  XBoardEngine_init unit unit (fun _ _ => Ok (bare_engine unit))
    (fun _ _ => Raise (EngineError "unsupported option")) ["engine"] [("cores", PyInt 4)] false
  = Raise (EngineError "unsupported option").
Proof. reflexivity. Qed.

Lemma UCIEngine_init_rejected :
  UCIEngine_init unit unit (fun _ _ => Ok (bare_engine unit))
    (fun _ _ => Raise (EngineError "unsupported option")) ["engine"] [("Hash", PyInt 128)] false
  = Raise (EngineError "unsupported option").
Proof. reflexivity. Qed.

(** X10 for a UCI configuration that sets the managed option Ponder beside
    Hash and a [go_commands] block. *)
Lemma create_engine_forwards_no_managed_option_run :
  ∃ self engine options,
    create_engine unit unit (fun k => String.eqb k "Ponder") (fun _ => "{}")
      (fun dir name => dir +:+ "/" +:+ name)
      (fun _ _ => Ok (bare_engine unit)) (fun _ _ => Ok (bare_engine unit))
    (fun _ _ => Ok tt)
      [("engine",
        PyDict [("dir", PyStr "/engines"); ("name", PyStr "stockfish");
                ("protocol", PyStr "uci");
                ("uci_options",
                 PyDict [("Ponder", PyBool true); ("Hash", PyInt 128);
                         ("go_commands", PyDict [("depth", PyInt 10)])])])]
    = Ok (UCI unit unit self)
    ∧ trace unit (uci_engine unit unit self)
      = (trace unit engine ++ [Configure unit options])%list
    ∧ Forall (fun item => String.eqb item.1 "Ponder" = false
                          ∧ item.1 ≠ "go_commands")
             options.
Proof.
  eexists.
  pose proof (create_engine_forwards_no_managed_option unit unit
                (fun k => String.eqb k "Ponder") (fun _ => "{}")
                (fun dir name => dir +:+ "/" +:+ name)
                (fun _ _ => Ok (bare_engine unit)) (fun _ _ => Ok (bare_engine unit))
    (fun _ _ => Ok tt)
                [("engine",
                  PyDict [("dir", PyStr "/engines"); ("name", PyStr "stockfish");
                          ("protocol", PyStr "uci");
                          ("uci_options",
                           PyDict [("Ponder", PyBool true); ("Hash", PyInt 128);
                                   ("go_commands", PyDict [("depth", PyInt 10)])])])]
                _ eq_refl) as (commands & silence_stderr & engine & options & H).
  exists engine, options. split; [reflexivity|].
  destruct H as (_ & Htrace & Hall). by split.
Defined.


